(** * A shallow embedding of the RAG chat service ([app.py])

    The development follows the source file top to bottom: Python strings
    and the few built-ins the handler relies on, the context formatter
    [format_docs_func], the start-up routine [load_rag_components] with the
    two prompt templates, and the request handler [chat].  Calls into the
    outside world (language detector, vector index, model backend) are
    oracles whose outcome is a value or a raised exception; every call and
    every [print] is recorded in a log, so that "this component was not
    invoked" is a statement about the log. *)

From Stdlib Require Import List ZArith NArith Lia Bool String Ascii.
From stdpp Require Import gmap strings.
Import ListNotations.

Local Open Scope list_scope.

(** ** Python strings *)

(** A Python [str] is a sequence of Unicode code points; [len] counts
    them.  Literals are written as UTF-8 text and decoded by [u8]. *)
Abbreviation pystr := (list N).

Module Utf8.

Definition byte_of (a : ascii) : N := N_of_ascii a.

Fixpoint bytes (s : string) : list N :=
  match s with
  | EmptyString => []
  | String a rest => byte_of a :: bytes rest
  end.

(** [decode acc k bs]: [k] continuation bytes are still expected for the
    code point whose high bits are [acc]. *)
Fixpoint decode (acc : N) (k : nat) (bs : list N) : list N :=
  match bs with
  | [] => []
  | b :: rest =>
      match k with
      | O =>
          if (b <? 128)%N then b :: decode 0%N 0 rest
          else if (b <? 224)%N then decode (N.land b 31) 1 rest
          else if (b <? 240)%N then decode (N.land b 15) 2 rest
          else decode (N.land b 7) 3 rest
      | S k' =>
          let acc' := (acc * 64 + N.land b 63)%N in
          match k' with
          | O => acc' :: decode 0%N 0 rest
          | S _ => decode acc' k' rest
          end
      end
  end.

End Utf8.

Definition u8 (s : string) : pystr := Utf8.decode 0%N 0 (Utf8.bytes s).

(** The newline and the double quote, which the literals below splice in. *)
Definition nl : pystr := [10%N].
Definition dq : pystr := [34%N].

Fixpoint pystr_eqb (s t : pystr) : bool :=
  match s, t with
  | [], [] => true
  | a :: s', b :: t' => (a =? b)%N && pystr_eqb s' t'
  | _, _ => false
  end.

(** [len(s)] *)
Definition py_len (s : pystr) : Z := Z.of_nat (List.length s).

(** [str.isspace] on one code point: the code points CPython treats as
    whitespace (bidirectional class WS, B or S, or category Zs). *)
Definition isspace (c : N) : bool :=
  ((9 <=? c) && (c <=? 13) || (28 <=? c) && (c <=? 32) || (c =? 133)
   || (c =? 160) || (c =? 5760) || (8192 <=? c) && (c <=? 8202)
   || (c =? 8232) || (c =? 8233) || (c =? 8239) || (c =? 8287)
   || (c =? 12288))%N.

Fixpoint lstrip (s : pystr) : pystr :=
  match s with
  | [] => []
  | c :: rest => if isspace c then lstrip rest else s
  end.

Definition rstrip (s : pystr) : pystr := rev (lstrip (rev s)).

(** [s.strip()] with no argument. *)
Definition strip (s : pystr) : pystr := rstrip (lstrip s).

(** [sep.join(xs)] *)
Fixpoint join (sep : pystr) (xs : list pystr) : pystr :=
  match xs with
  | [] => []
  | x :: rest =>
      match rest with
      | [] => x
      | _ :: _ => x ++ sep ++ join sep rest
      end
  end.

(** ** Exceptions and results *)

(** Everything the handler catches derives from [Exception]; the only
    class it tells apart is [LangDetectException]. *)
Inductive exn_class : Type :=
  | LangDetectException
  | AttributeError
  | KeyError
  | ValueError
  | OtherException.

Record exn : Type := MkExn { exn_kind : exn_class; exn_str : pystr }.

Inductive result (A : Type) : Type :=
  | Ok (a : A)
  | Raise (e : exn).
Arguments Ok {A} a.
Arguments Raise {A} e.

(** ** Documents and the context formatter *)

Record Document : Type := MkDoc { page_content : pystr; metadata : pystr }.

(** [format_docs_func(docs)] *)
Definition format_docs_func (docs : list Document) : pystr :=
  join (nl ++ nl) (map page_content docs).

(** The formatter as the specification words it: the first chunk, then
    every further chunk preceded by a blank line. *)
Definition blank_line_separated (docs : list Document) : pystr :=
  match docs with
  | [] => []
  | d :: rest =>
      page_content d ++ flat_map (fun d' => [10%N; 10%N] ++ page_content d') rest
  end.

(** ** Prompt templates *)

(** [PromptTemplate.from_template(t)] keeps the template text;
    [.format(context=..., question=...)] renders it with the rules of
    [str.format]: doubled braces are literal braces, [{name}] is replaced by
    the keyword argument of that name in a single pass (substituted text is
    never scanned again), an unknown name raises [KeyError], an unbalanced
    brace raises [ValueError]. *)
Record PromptTemplate : Type := from_template { template : pystr }.

Definition lbrace : N := 123%N.
Definition rbrace : N := 125%N.

Definition kwargs := pystr -> option pystr.

Definition lookup_field (kw : kwargs) (name : pystr) : result pystr :=
  match kw name with
  | Some v => Ok v
  | None => Raise (MkExn KeyError name)
  end.

Definition prepend (pre : pystr) (r : result pystr) : result pystr :=
  match r with
  | Ok s => Ok (pre ++ s)
  | Raise e => Raise e
  end.

(** [field = None]: scanning literal text; [field = Some acc]: inside a
    replacement field whose name read so far is [rev acc]. *)
Fixpoint str_format (kw : kwargs) (field : option pystr) (t : pystr) : result pystr :=
  match field with
  | None =>
      match t with
      | [] => Ok []
      | c :: rest =>
          if (c =? lbrace)%N then
            match rest with
            | c' :: rest' =>
                if (c' =? lbrace)%N then prepend [lbrace] (str_format kw None rest')
                else str_format kw (Some []) rest
            | [] => Raise (MkExn ValueError (u8 "Single '{' encountered in format string"))
            end
          else if (c =? rbrace)%N then
            match rest with
            | c' :: rest' =>
                if (c' =? rbrace)%N then prepend [rbrace] (str_format kw None rest')
                else Raise (MkExn ValueError (u8 "Single '}' encountered in format string"))
            | [] => Raise (MkExn ValueError (u8 "Single '}' encountered in format string"))
            end
          else prepend [c] (str_format kw None rest)
      end
  | Some acc =>
      match t with
      | [] => Raise (MkExn ValueError (u8 "expected '}' before end of string"))
      | c :: rest =>
          if (c =? rbrace)%N then
            match lookup_field kw (rev acc) with
            | Ok v => prepend v (str_format kw None rest)
            | Raise e => Raise e
            end
          else str_format kw (Some (c :: acc)) rest
      end
  end.

(** The keyword arguments of the handler's call:
    [format(context=context_text, question=user_message)]. *)
Definition prompt_kwargs (context question : pystr) : kwargs :=
  fun name =>
    if pystr_eqb name (u8 "context") then Some context
    else if pystr_eqb name (u8 "question") then Some question
    else None.

Definition format_prompt (p : PromptTemplate) (context question : pystr) : result pystr :=
  str_format (prompt_kwargs context question) None (template p).

(** The Bengali template of [load_rag_components]. *)
Definition template_bn : pystr :=
  u8 "[SYSTEM]: আপনি একজন সহায়ক সহকারী যিনি সর্বদা বাংলা ভাষায় উত্তর দিবেন।" ++ nl ++
  nl ++
  u8 "    নিম্নলিখিত প্রসঙ্গ ব্যবহার করে প্রশ্নের উত্তর দিন:" ++ nl ++
  nl ++
  u8 "    {context}" ++ nl ++
  nl ++
  u8 "    যদি আপনি উত্তর না জানেন, তবে শুধু বাংলায় বলুন " ++ dq ++ u8 "আমি এই প্রশ্নের উত্তর জানি না" ++ dq ++ u8 "।" ++ nl ++
  nl ++
  u8 "    নির্দেশাবলী:" ++ nl ++
  u8 "    - অবশ্যই শুধুমাত্র বাংলা ভাষায় উত্তর দিন" ++ nl ++
  u8 "    - সর্বোচ্চ তিনটি বাক্য ব্যবহার করুন" ++ nl ++
  u8 "    - সংক্ষিপ্ত এবং সুনির্দিষ্ট উত্তর দিন" ++ nl ++
  u8 "    - প্রদত্ত তথ্যের বাইরে যাবেন না" ++ nl ++
  nl ++
  u8 "    প্রশ্ন: {question}" ++ nl ++
  nl ++
  u8 "    উত্তর:".

(** The English template of [load_rag_components]. *)
Definition template_en : pystr :=
  u8 "[SYSTEM]: You are a helpful assistant that MUST always respond in English." ++ nl ++
  nl ++
  u8 "    Use the following context to answer the question:" ++ nl ++
  nl ++
  u8 "    {context}" ++ nl ++
  nl ++
  u8 "    If you don't know the answer, just say " ++ dq ++ u8 "I don't know the answer to this question" ++ dq ++ u8 " in English." ++ nl ++
  nl ++
  u8 "    Instructions:" ++ nl ++
  u8 "    - MUST answer only in English." ++ nl ++
  u8 "    - Use a maximum of three sentences." ++ nl ++
  u8 "    - Keep the answer concise and specific." ++ nl ++
  u8 "    - Do not go beyond the provided information." ++ nl ++
  nl ++
  u8 "    Question: {question}" ++ nl ++
  nl ++
  u8 "    Answer:".

(** ** Objects returned by the model backend *)

(** A response object is its attribute dictionary together with what
    [str(obj)] renders.  Attribute values are text. *)
Record PyObject : Type := MkObj { attrs : gmap string pystr; obj_str : pystr }.

Definition hasattr (o : PyObject) (name : string) : bool :=
  match attrs o !! name with
  | Some _ => true
  | None => false
  end.

(** [o.name] raises [AttributeError] when the attribute is absent. *)
Definition getattr (o : PyObject) (name : string) : result pystr :=
  match attrs o !! name with
  | Some v => Ok v
  | None => Raise (MkExn AttributeError (u8 "object has no attribute"))
  end.

Definition py_str (o : PyObject) : pystr := obj_str o.

(** [ai_response.content if hasattr(ai_response, 'content') else str(ai_response)] *)
Definition extract_text (ai_response : PyObject) : result pystr :=
  if hasattr ai_response "content" then getattr ai_response "content"
  else Ok (py_str ai_response).

(** ** External components *)

Record Embeddings : Type := MkEmbeddings { model_name : pystr }.

(** The loaded FAISS store: similarity search for a query and a number of
    neighbours. *)
Record VectorStore : Type :=
  MkStore { similarity_search : pystr -> nat -> result (list Document) }.

Record Retriever : Type :=
  MkRetriever { retriever_invoke : pystr -> result (list Document) }.

(** [store.as_retriever(search_kwargs={"k": k})] *)
Definition as_retriever (store : VectorStore) (k : nat) : Retriever :=
  MkRetriever (fun query => similarity_search store query k).

Record ChatOllama : Type :=
  MkLLM { llm_model : pystr; llm_invoke : pystr -> result PyObject }.

(** What the imports of [app.py] provide. *)
Record Env : Type := MkEnv {
  detect : pystr -> result pystr;
  HuggingFaceEmbeddings : pystr -> result Embeddings;
  FAISS_load_local : pystr -> Embeddings -> result VectorStore;
  new_ChatOllama : pystr -> result ChatOllama
}.

(** ** Module state, log and the handler monad *)

(** The five module-level variables, [None] until assigned. *)
Record Globals : Type := MkGlobals {
  llm : option ChatOllama;
  retriever : option Retriever;
  format_docs : option (list Document -> pystr);
  QA_PROMPT_BN : option PromptTemplate;
  QA_PROMPT_EN : option PromptTemplate
}.

Definition initial_globals : Globals := MkGlobals None None None None None.

Inductive event : Type :=
  | Print (line : pystr)
  | Call (callee : string) (arg : pystr).

Record World : Type := MkWorld { globals : Globals; log : list event }.

Definition initial_world : World := MkWorld initial_globals [].

(** A computation reads and writes the world and ends with a value or a
    raised exception. *)
Definition M (A : Type) : Type := World -> result A * World.

Definition ret {A} (a : A) : M A := fun w => (Ok a, w).

Definition bind {A B} (m : M A) (k : A -> M B) : M B :=
  fun w =>
    match m w with
    | (Ok a, w') => k a w'
    | (Raise e, w') => (Raise e, w')
    end.

Declare Scope py_scope.
Delimit Scope py_scope with py.
Notation "x <- c ;; k" := (bind c (fun x => k))
  (at level 100, c at next level, right associativity) : py_scope.
Notation "c ;; k" := (bind c (fun _ => k))
  (at level 100, right associativity) : py_scope.
Local Open Scope py_scope.

(** [try: m except Exception as e: handler e]; what [m] did before raising
    stays done. *)
Definition try_except {A} (m : M A) (handler : exn -> M A) : M A :=
  fun w =>
    match m w with
    | (Ok a, w') => (Ok a, w')
    | (Raise e, w') => handler e w'
    end.

Definition emit (ev : event) : M unit :=
  fun w => (Ok tt, MkWorld (globals w) (log w ++ [ev])).

Definition print (line : pystr) : M unit := emit (Print line).

(** A call into an external component: logged, then its outcome. *)
Definition call {A} (callee : string) (arg : pystr) (outcome : result A) : M A :=
  fun w => (outcome, MkWorld (globals w) (log w ++ [Call callee arg])).

Definition lift {A} (r : result A) : M A := fun w => (r, w).

Definition read_globals : M Globals := fun w => (Ok (globals w), w).

Definition write_globals (f : Globals -> Globals) : M unit :=
  fun w => (Ok tt, MkWorld (f (globals w)) (log w)).

Definition set_llm (v : ChatOllama) (g : Globals) : Globals :=
  MkGlobals (Some v) (retriever g) (format_docs g) (QA_PROMPT_BN g) (QA_PROMPT_EN g).
Definition set_retriever (v : Retriever) (g : Globals) : Globals :=
  MkGlobals (llm g) (Some v) (format_docs g) (QA_PROMPT_BN g) (QA_PROMPT_EN g).
Definition set_format_docs (v : list Document -> pystr) (g : Globals) : Globals :=
  MkGlobals (llm g) (retriever g) (Some v) (QA_PROMPT_BN g) (QA_PROMPT_EN g).
Definition set_QA_PROMPT_BN (v : PromptTemplate) (g : Globals) : Globals :=
  MkGlobals (llm g) (retriever g) (format_docs g) (Some v) (QA_PROMPT_EN g).
Definition set_QA_PROMPT_EN (v : PromptTemplate) (g : Globals) : Globals :=
  MkGlobals (llm g) (retriever g) (format_docs g) (QA_PROMPT_BN g) (Some v).

(** ** Start-up: [load_rag_components] *)

Definition folder_path : pystr := u8 "faiss_index".
Definition embedding_model : pystr := u8 "sentence-transformers/all-MiniLM-L6-v2".
Definition ollama_model : pystr := u8 "smollm2:360m".

(** A block that may execute [return v] hands back [Some v]; [None] means
    control falls through to the next statement. *)
Definition load_vector_store (env : Env) (embeddings : Embeddings) : M (option bool) :=
  try_except
    (loaded_vectorstore <-
       call "FAISS.load_local" folder_path (FAISS_load_local env folder_path embeddings);;
     write_globals (set_retriever (as_retriever loaded_vectorstore 4));;
     write_globals (set_format_docs format_docs_func);;
     ret None)
    (fun e =>
       print (u8 "Error loading FAISS index: " ++ exn_str e);;
       ret (Some false)).

Definition setup_llm (env : Env) : M (option bool) :=
  try_except
    (v <- call "ChatOllama" ollama_model (new_ChatOllama env ollama_model);;
     write_globals (set_llm v);;
     call "llm.invoke" (u8 "Hello") (llm_invoke v (u8 "Hello"));;
     print (u8 "Ollama connection successful.");;
     ret None)
    (fun e =>
       print (u8 "Error connecting to Ollama: " ++ exn_str e);;
       ret (Some false)).

Definition load_rag_components (env : Env) : M bool :=
  print (u8 "Loading components for RAG...");;
  print (u8 "Loading embeddings model: " ++ embedding_model ++ u8 "...");;
  embeddings <-
    call "HuggingFaceEmbeddings" embedding_model (HuggingFaceEmbeddings env embedding_model);;
  print (u8 "Loading vector store from " ++ folder_path ++ u8 "...");;
  returned <- load_vector_store env embeddings;;
  match returned with
  | Some v => ret v
  | None =>
      print (u8 "Vector store loaded successfully.");;
      print (u8 "Initializing Ollama LLM (smollm2:360m)...");;
      returned <- setup_llm env;;
      match returned with
      | Some v => ret v
      | None =>
          write_globals (set_QA_PROMPT_BN (from_template template_bn));;
          write_globals (set_QA_PROMPT_EN (from_template template_en));;
          print (u8 "✅ RAG components are ready.");;
          ret true
      end
  end.

(** ** The request handler: [chat] *)

(** The JSON body of a request: [message] is [None] when the key is absent
    (what [data.get('message')] returns then). *)
Record Request : Type := MkRequest { message : option pystr }.

Inductive Body : Type :=
  | ErrorBody (error : pystr)
  | ResponseBody (response : pystr).

(** [jsonify(body), status]; a bare [jsonify(body)] has status 200. *)
Record Response : Type := MkResponse { body : Body; status : Z }.

(** [not user_message] *)
Definition py_not (user_message : option pystr) : bool :=
  match user_message with
  | None => true
  | Some [] => true
  | Some (_ :: _) => false
  end.

(** [all([llm, retriever, format_docs, QA_PROMPT_BN, QA_PROMPT_EN])] *)
Definition components_loaded (g : Globals) : bool :=
  match llm g, retriever g, format_docs g, QA_PROMPT_BN g, QA_PROMPT_EN g with
  | Some _, Some _, Some _, Some _, Some _ => true
  | _, _, _, _, _ => false
  end.

Definition bn : pystr := u8 "bn".

(** The block under [# --- Language Detection ---]: the value of
    [detected_lang] when the block is left. *)
Definition detect_language (env : Env) (user_message : pystr) : M pystr :=
  try_except
    (detected_lang <-
       (if (10 <? py_len (strip user_message))%Z
        then call "detect" user_message (detect env user_message)
        else ret bn);;
     print (u8 "Detected language: " ++ detected_lang);;
     ret detected_lang)
    (fun e =>
       match exn_kind e with
       | LangDetectException =>
           print (u8 "Language detection failed, defaulting to Bengali.");;
           ret bn
       | _ =>
           print (u8 "An unexpected error occurred during language detection: "
                  ++ exn_str e ++ u8 ". Defaulting to Bengali.");;
           ret bn
       end).

(** The block under [# --- Retrieve Context ---]: either the response the
    handler returns at once, or [context_text]. *)
Definition retrieve_context (retriever : Retriever) (format_docs : list Document -> pystr)
    (user_message : pystr) : M (Response + pystr) :=
  try_except
    (retrieved_docs <-
       call "retriever.invoke" user_message (retriever_invoke retriever user_message);;
     ret (inr (format_docs retrieved_docs)))
    (fun e =>
       print (u8 "Error retrieving documents: " ++ exn_str e);;
       ret (inl (MkResponse (ErrorBody (u8 "Failed to retrieve relevant context.")) 500))).

(** The [if detected_lang == 'bn'] of [# --- Choose Prompt and Format ---]. *)
Definition choose_prompt (QA_PROMPT_BN QA_PROMPT_EN : PromptTemplate)
    (detected_lang : pystr) : M PromptTemplate :=
  if pystr_eqb detected_lang bn
  then (print (u8 "Using Bengali prompt.");; ret QA_PROMPT_BN)
  else (print (u8 "Using English prompt.");; ret QA_PROMPT_EN).

(** The block under [# --- Invoke LLM ---]: either the response the handler
    returns at once, or [bot_response]. *)
Definition invoke_llm (llm : ChatOllama) (formatted_prompt : pystr) : M (Response + pystr) :=
  try_except
    (ai_response <- call "llm.invoke" formatted_prompt (llm_invoke llm formatted_prompt);;
     bot_response <- lift (extract_text ai_response);;
     ret (inr bot_response))
    (fun e =>
       print (u8 "Error during LLM invocation: " ++ exn_str e);;
       ret (inl (MkResponse
                   (ErrorBody (u8 "LLM failed to generate response: " ++ exn_str e)) 500))).

(** From [prompt_template.format(...)] to the final [return]: the prompt
    is rendered, sent to the backend, and the text is wrapped in a
    response. *)
Definition answer (llm : ChatOllama) (prompt_template : PromptTemplate)
    (context_text user_message : pystr) : M Response :=
  formatted_prompt <- lift (format_prompt prompt_template context_text user_message);;
  generated <- invoke_llm llm formatted_prompt;;
  match generated with
  | inl early => ret early
  | inr bot_response =>
      print (u8 "Sending response: " ++ bot_response);;
      ret (MkResponse (ResponseBody bot_response) 200)
  end.

(** The body of the outer [try] once the components are known to be set. *)
Definition chat_request (env : Env) (llm : ChatOllama) (retriever : Retriever)
    (format_docs : list Document -> pystr) (QA_PROMPT_BN QA_PROMPT_EN : PromptTemplate)
    (req : Request) : M Response :=
  match py_not (message req), message req with
  | false, Some user_message =>
      print (u8 "Received query: " ++ user_message);;
      detected_lang <- detect_language env user_message;;
      retrieved <- retrieve_context retriever format_docs user_message;;
      match retrieved with
      | inl early => ret early
      | inr context_text =>
          prompt_template <- choose_prompt QA_PROMPT_BN QA_PROMPT_EN detected_lang;;
          answer llm prompt_template context_text user_message
      end
  | _, _ => ret (MkResponse (ErrorBody (u8 "No 'message' found in request")) 400)
  end.

(** The outer [except Exception as e] of the handler. *)
Definition endpoint_handler (e : exn) : M Response :=
  print (u8 "Error in /chat endpoint: " ++ exn_str e);;
  ret (MkResponse (ErrorBody (exn_str e)) 500).

Definition chat (env : Env) (req : Request) : M Response :=
  g <- read_globals;;
  match llm g, retriever g, format_docs g, QA_PROMPT_BN g, QA_PROMPT_EN g with
  | Some llm, Some retriever, Some format_docs, Some QA_PROMPT_BN, Some QA_PROMPT_EN =>
      try_except
        (chat_request env llm retriever format_docs QA_PROMPT_BN QA_PROMPT_EN req)
        endpoint_handler
  | _, _, _, _, _ =>
      ret (MkResponse
             (ErrorBody (u8 "RAG components are not loaded. Check server logs.")) 500)
  end.

(** ** Entry point *)

(** The [if __name__ == '__main__':] block.  [app_run] is the outcome of
    [app.run(host='0.0.0.0', port=5000)], which serves requests until the
    process is stopped. *)
Definition main (env : Env) (app_run : result unit) : M unit :=
  loaded <- load_rag_components env;;
  if loaded then
    print (nl ++ u8 "--- Starting Flask Server ---");;
    print (u8 "Your RAG chatbot is now available at http://localhost:5000");;
    print (u8 "Your frontend can send POST requests to http://localhost:5000/chat");;
    call "app.run" (u8 "host=0.0.0.0, port=5000") app_run
  else
    print (nl ++ u8 "Failed to load RAG components. Server will not start.").

(** ** The statistics tool ([QAgenerator.py]) *)

Module Stats.

(** A parsed JSON document, as [json.load] returns it: objects are
    dictionaries with string keys.  The text of a float is kept as read. *)
#[warnings="-register-all"]
Inductive json : Type :=
  | JNull
  | JBool (b : bool)
  | JInt (z : Z)
  | JFloat (text : pystr)
  | JString (s : pystr)
  | JArray (items : list json)
  | JObject (fields : gmap string json).

(** The exceptions that matter to [load_data]: the two it catches, the one
    raised by [.get] on a value that is not a dictionary, and any other. *)
Inductive exception : Type :=
  | FileNotFoundError
  | JSONDecodeError
  | AttributeError
  | OtherError (name : pystr).

(** The fields of an [ActStatistics] object; [data] is [None] and [acts] is
    the empty list until a file has been loaded. *)
Record ActStatistics : Type := MkStats {
  input_file : pystr;
  data : option json;
  acts : json
}.

(** [ActStatistics(input_file)] *)
Definition init (input_file : pystr) : ActStatistics :=
  MkStats input_file None (JArray []).

(** [d.get(key, default)]: only dictionaries have the method. *)
Definition dict_get (d : json) (key : string) (default : json) : exception + json :=
  match d with
  | JObject fields =>
      inr match fields !! key with
          | Some v => v
          | None => default
          end
  | _ => inl AttributeError
  end.

(** What a method call leaves behind: the value returned or the exception
    raised, the object afterwards, and the lines printed. *)
Record outcome (A : Type) : Type := MkOutcome {
  returned : exception + A;
  self_after : ActStatistics;
  printed : list pystr
}.
Arguments MkOutcome {A} _ _ _.
Arguments returned {A} _.
Arguments self_after {A} _.
Arguments printed {A} _.

(** [self.load_data()].  [read_json path] stands for opening the file and
    [json.load]: the parsed document, or the exception raised. *)
Definition load_data (read_json : pystr -> exception + json) (self : ActStatistics) :
    outcome bool :=
  let loading := u8 "Loading data from: " ++ input_file self in
  match read_json (input_file self) with
  | inr parsed =>
      let self1 := MkStats (input_file self) (Some parsed) (acts self) in
      match dict_get parsed "acts" (JArray []) with
      | inr found =>
          MkOutcome (inr true) (MkStats (input_file self) (Some parsed) found)
            [loading; u8 "✓ Successfully loaded dataset" ++ nl]
      | inl e => MkOutcome (inl e) self1 [loading]
      end
  | inl FileNotFoundError =>
      MkOutcome (inr false) self
        [loading; u8 "✗ Error: File '" ++ input_file self ++ u8 "' not found"]
  | inl JSONDecodeError =>
      MkOutcome (inr false) self [loading; u8 "✗ Error: Invalid JSON format"]
  | inl e => MkOutcome (inl e) self [loading]
  end.

(** The names [main] tries, in this order, when no file is given. *)
Definition possible_names : list pystr :=
  [u8 "Contextualized_Bangladesh_Legal_Acts.json";
   u8 "Contextualized_Bangladesh_Legal_Acts";
   u8 "legal_acts_dataset.json";
   u8 "all_acts_clean.txt";
   u8 "contextualized_bangladesh_legal_acts.json";
   u8 "bangladesh_legal_acts.json"].

(** How the first part of [main] ends: with the object to work on, or with
    [sys.exit(code)]. *)
Inductive selection : Type :=
  | Selected (stats : ActStatistics)
  | Exit (code : Z).

Definition banner : list pystr :=
  [repeat 61%N 70; u8 "BANGLADESH LEGAL ACTS - STATISTICS COUNTER"; repeat 61%N 70; []].

(** [main] up to [stats = ActStatistics(input_file)]: [argv] is [sys.argv]
    and [path_exists] is [os.path.exists]. *)
Definition select_input (argv : list pystr) (path_exists : pystr -> bool) :
    selection * list pystr :=
  match argv with
  | _ :: arg :: _ => (Selected (init arg), banner)
  | _ =>
      match List.find path_exists possible_names with
      | Some name =>
          match name with
          | [] =>
              (Exit 1, banner ++ [u8 "ERROR: No dataset file found!";
                                  u8 "Usage: python act_counter.py YOUR_FILE.json"])
          | _ :: _ => (Selected (init name), banner)
          end
      | None =>
          (Exit 1, banner ++ [u8 "ERROR: No dataset file found!";
                              u8 "Usage: python act_counter.py YOUR_FILE.json"])
      end
  end.

End Stats.

(** ** The handler on an arbitrary request body *)

(** [chat] above reads the body through the record [Request], that is, a
    JSON object whose [message] is absent, [null] or text.  This section
    embeds the same source lines for whatever [request.json] yields: an
    exception, a value that is not a dictionary, and messages of any JSON
    type. *)
Module Raw.

(** The Python values [request.json] can return.  A float is kept as
    what the code can observe of it: whether it is non-zero (truthiness)
    and how [str] shows it. *)
#[warnings="-register-all"]
Inductive pyvalue : Type :=
  | PNone
  | PBool (b : bool)
  | PInt (z : Z)
  | PFloat (nonzero : bool) (shown : pystr)
  | PStr (s : pystr)
  | PList (items : list pyvalue)
  | PDict (fields : gmap string pyvalue).

(** [type(v).__name__] *)
Definition type_name (v : pyvalue) : pystr :=
  match v with
  | PNone => u8 "NoneType"
  | PBool _ => u8 "bool"
  | PInt _ => u8 "int"
  | PFloat _ _ => u8 "float"
  | PStr _ => u8 "str"
  | PList _ => u8 "list"
  | PDict _ => u8 "dict"
  end.

(** [bool(v)]: what [not v] negates. *)
Definition truthy (v : pyvalue) : bool :=
  match v with
  | PNone => false
  | PBool b => b
  | PInt z => negb (z =? 0)%Z
  | PFloat nonzero _ => nonzero
  | PStr s => match s with [] => false | _ :: _ => true end
  | PList items => match items with [] => false | _ :: _ => true end
  | PDict fields => negb (bool_decide (fields = ∅))
  end.

(** The exception of [v.attr] for an attribute the type does not have. *)
Definition attribute_error (v : pyvalue) (attr : pystr) : exn :=
  MkExn AttributeError
    (u8 "'" ++ type_name v ++ u8 "' object has no attribute '" ++ attr ++ u8 "'").

(** [data.get(key)]: only dictionaries have the method; a missing key
    gives [None]. *)
Definition py_get (data : pyvalue) (key : string) : result pyvalue :=
  match data with
  | PDict fields =>
      Ok match fields !! key with
         | Some v => v
         | None => PNone
         end
  | _ => Raise (attribute_error data (u8 "get"))
  end.

(** [v.strip()]: only text has the method. *)
Definition py_strip (v : pyvalue) : result pystr :=
  match v with
  | PStr s => Ok (strip s)
  | _ => Raise (attribute_error v (u8 "strip"))
  end.

(** What the imports provide, extended to messages that are not text:
    [py_str] is Python's [str] on such values and [invoke_nontext] is what
    [retriever.invoke] does when handed one. *)
Record RawEnv : Type := MkRawEnv {
  base : Env;
  py_str : pyvalue -> pystr;
  invoke_nontext : Retriever -> pyvalue -> result (list Document)
}.

(** [str(v)], as the f-strings and [format] insert it. *)
Definition show (env : RawEnv) (v : pyvalue) : pystr :=
  match v with
  | PStr s => s
  | _ => py_str env v
  end.

(** [request.json]: the parsed body, or the exception it raises when the
    body is not JSON. *)
Record RawRequest : Type := MkRawRequest { request_json : result pyvalue }.

(** The two [except] clauses of the language block. *)
Definition detection_except (e : exn) : M pystr :=
  match exn_kind e with
  | LangDetectException =>
      print (u8 "Language detection failed, defaulting to Bengali.");;
      ret bn
  | _ =>
      print (u8 "An unexpected error occurred during language detection: "
             ++ exn_str e ++ u8 ". Defaulting to Bengali.");;
      ret bn
  end.

(** What [retriever.invoke(user_message)] yields. *)
Definition invoke (env : RawEnv) (retriever : Retriever) (user_message : pyvalue) :
    result (list Document) :=
  match user_message with
  | PStr s => retriever_invoke retriever s
  | _ => invoke_nontext env retriever user_message
  end.

(** The block under [# --- Language Detection ---]; for a message that is
    not text, [user_message.strip()] raises inside the [try]. *)
Definition detect_language (env : RawEnv) (user_message : pyvalue) : M pystr :=
  try_except
    (stripped <- lift (py_strip user_message);;
     detected_lang <-
       (if (10 <? py_len stripped)%Z
        then call "detect" (show env user_message) (detect (base env) (show env user_message))
        else ret bn);;
     print (u8 "Detected language: " ++ detected_lang);;
     ret detected_lang)
    detection_except.

(** The block under [# --- Retrieve Context ---]. *)
Definition retrieve_context (env : RawEnv) (retriever : Retriever)
    (format_docs : list Document -> pystr) (user_message : pyvalue) : M (Response + pystr) :=
  try_except
    (retrieved_docs <-
       call "retriever.invoke" (show env user_message) (invoke env retriever user_message);;
     ret (inr (format_docs retrieved_docs)))
    (fun e =>
       print (u8 "Error retrieving documents: " ++ exn_str e);;
       ret (inl (MkResponse (ErrorBody (u8 "Failed to retrieve relevant context.")) 500))).

(** The handler from [print(f"Received query: ...")] on, for a message
    that passed the emptiness test. *)
Definition handle_message (env : RawEnv) (llm : ChatOllama) (retriever : Retriever)
    (format_docs : list Document -> pystr) (QA_PROMPT_BN QA_PROMPT_EN : PromptTemplate)
    (user_message : pyvalue) : M Response :=
  print (u8 "Received query: " ++ show env user_message);;
  detected_lang <- detect_language env user_message;;
  retrieved <- retrieve_context env retriever format_docs user_message;;
  match retrieved with
  | inl early => ret early
  | inr context_text =>
      prompt_template <- choose_prompt QA_PROMPT_BN QA_PROMPT_EN detected_lang;;
      answer llm prompt_template context_text (show env user_message)
  end.

(** The body of the outer [try]. *)
Definition chat_request (env : RawEnv) (llm : ChatOllama) (retriever : Retriever)
    (format_docs : list Document -> pystr) (QA_PROMPT_BN QA_PROMPT_EN : PromptTemplate)
    (req : RawRequest) : M Response :=
  data <- lift (request_json req);;
  user_message <- lift (py_get data "message");;
  if negb (truthy user_message)
  then ret (MkResponse (ErrorBody (u8 "No 'message' found in request")) 400)
  else handle_message env llm retriever format_docs QA_PROMPT_BN QA_PROMPT_EN user_message.

Definition chat (env : RawEnv) (req : RawRequest) : M Response :=
  g <- read_globals;;
  match llm g, retriever g, format_docs g, QA_PROMPT_BN g, QA_PROMPT_EN g with
  | Some llm, Some retriever, Some format_docs, Some QA_PROMPT_BN, Some QA_PROMPT_EN =>
      try_except
        (chat_request env llm retriever format_docs QA_PROMPT_BN QA_PROMPT_EN req)
        endpoint_handler
  | _, _, _, _, _ =>
      ret (MkResponse
             (ErrorBody (u8 "RAG components are not loaded. Check server logs.")) 500)
  end.

(** The body behind a [Request]: a JSON object with the message as its
    only member, or with no member. *)
Definition body_of (req : Request) : RawRequest :=
  MkRawRequest
    (Ok (PDict match message req with
               | Some s => {["message"%string := PStr s]}
               | None => ∅
               end)).

End Raw.

(** ** Reading the log *)

(** What a computation appends to the log when run from [w]. *)
Definition events_of {A} (m : M A) (w : World) : list event :=
  skipn (List.length (log w)) (log (snd (m w))).

(** The arguments of the logged calls to [callee], in order. *)
Definition calls_to (callee : string) (evs : list event) : list pystr :=
  flat_map
    (fun ev =>
       match ev with
       | Call c arg => if String.eqb c callee then [arg] else []
       | Print _ => []
       end)
    evs.

(** Whether [needle] occurs in [s] as a contiguous run. *)
Definition occurs_in (needle s : pystr) : Prop :=
  exists before after, s = before ++ needle ++ after.

(** ** Vocabulary of the statements

    Nothing below this line is part of [app.py].  These definitions name
    the responses and log lines the handler produces, give the blocks of
    the handler in closed form, cut the templates at their slots, and set
    up a small concrete deployment on which the results are exercised.
    Each closed form is tied to the code by a lemma of the next part. *)

(** The world after [evs] were appended to the log. *)
Definition extend (w : World) (evs : list event) : World :=
  MkWorld (globals w) (log w ++ evs).

(** The line printed by whichever [except] clause of the language block
    catches [e]. *)
Definition detection_failure_line (e : exn) : pystr :=
  match exn_kind e with
  | LangDetectException => u8 "Language detection failed, defaulting to Bengali."
  | _ =>
      u8 "An unexpected error occurred during language detection: "
      ++ exn_str e ++ u8 ". Defaulting to Bengali."
  end.

(** The language block in closed form: the code it leaves in
    [detected_lang] and what it logs. *)
Definition detected_lang (env : Env) (msg : pystr) : pystr :=
  if (10 <? py_len (strip msg))%Z then
    match detect env msg with
    | Ok code => code
    | Raise _ => bn
    end
  else bn.

(** What the language block appends to the log. *)
Definition detection_events (env : Env) (msg : pystr) : list event :=
  if (10 <? py_len (strip msg))%Z then
    match detect env msg with
    | Ok code => [Call "detect" msg; Print (u8 "Detected language: " ++ code)]
    | Raise e => [Call "detect" msg; Print (detection_failure_line e)]
    end
  else [Print (u8 "Detected language: " ++ bn)].

(** The line printed when the template is chosen. *)
Definition using_line (code : pystr) : pystr :=
  if pystr_eqb code bn then u8 "Using Bengali prompt." else u8 "Using English prompt.".

(** The four fixed error responses of the handler, in source order. *)
Definition not_loaded_response : Response :=
  MkResponse (ErrorBody (u8 "RAG components are not loaded. Check server logs.")) 500.

Definition missing_message_response : Response :=
  MkResponse (ErrorBody (u8 "No 'message' found in request")) 400.

Definition retrieval_failed_response : Response :=
  MkResponse (ErrorBody (u8 "Failed to retrieve relevant context.")) 500.

(** What the backend call and the text extraction yield together. *)
Definition generation (l : ChatOllama) (prompt : pystr) : result pystr :=
  match llm_invoke l prompt with
  | Ok ai_response => extract_text ai_response
  | Raise e => Raise e
  end.

Definition generation_failed_response (e : exn) : Response :=
  MkResponse (ErrorBody (u8 "LLM failed to generate response: " ++ exn_str e)) 500.

(** The first line the handler prints for a request it accepts. *)
Definition received_line (msg : pystr) : event := Print (u8 "Received query: " ++ msg).

(** The specification's closed set of language tags, and what the code
    associates with each. *)
Inductive LanguageTag : Type := BN | EN.

Definition template_text (tag : LanguageTag) : pystr :=
  match tag with
  | BN => template_bn
  | EN => template_en
  end.

(** The sentence of each template that tells the model what to say when it
    does not know the answer, and the phrase it quotes. *)
Definition refusal_phrase (tag : LanguageTag) : pystr :=
  match tag with
  | BN => u8 "আমি এই প্রশ্নের উত্তর জানি না"
  | EN => u8 "I don't know the answer to this question"
  end.

Definition fallback_instruction (tag : LanguageTag) : pystr :=
  match tag with
  | BN =>
      u8 "যদি আপনি উত্তর না জানেন, তবে শুধু বাংলায় বলুন "
      ++ dq ++ refusal_phrase BN ++ dq ++ u8 "।"
  | EN =>
      u8 "If you don't know the answer, just say "
      ++ dq ++ refusal_phrase EN ++ dq ++ u8 " in English."
  end.

Definition context_slot : pystr := u8 "{context}".
Definition question_slot : pystr := u8 "{question}".

(** Offsets of the two slots in each template text. *)
Definition context_at (tag : LanguageTag) : nat :=
  match tag with BN => 133 | EN => 135 end.
Definition question_at (tag : LanguageTag) : nat :=
  match tag with BN => 423 | EN => 446 end.

(** The fixed text before, between and after the two slots. *)
Definition template_head (tag : LanguageTag) : pystr :=
  firstn (context_at tag) (template_text tag).
Definition template_between (tag : LanguageTag) : pystr :=
  firstn (question_at tag - context_at tag - 9)
         (skipn (context_at tag + 9) (template_text tag)).
Definition template_tail (tag : LanguageTag) : pystr :=
  skipn (question_at tag + 10) (template_text tag).

(** A template with both slots filled. *)
Definition rendered (tag : LanguageTag) (context question : pystr) : pystr :=
  template_head tag ++ context ++ template_between tag ++ question ++ template_tail tag.

(** What the handler has logged when it reaches the backend call. *)
Definition prelude (env : Env) (msg : pystr) : list event :=
  received_line msg :: detection_events env msg
  ++ [Call "retriever.invoke" msg; Print (using_line (detected_lang env msg))].

(** The template the handler formats for a query. *)
Definition chosen_template (env : Env) (pbn pen : PromptTemplate) (msg : pystr) :
    PromptTemplate :=
  if pystr_eqb (detected_lang env msg) bn then pbn else pen.

(** The response and the log entries of one request, as a function of the
    module variables and the request. *)
Definition chat_outcome (env : Env) (g : Globals) (req : Request) : Response * list event :=
  match g with
  | MkGlobals (Some l) (Some r) (Some f) (Some pbn) (Some pen) =>
      match message req with
      | Some ((_ :: _) as msg) =>
          match retriever_invoke r msg with
          | Raise e =>
              (retrieval_failed_response,
               received_line msg :: detection_events env msg
               ++ [Call "retriever.invoke" msg;
                   Print (u8 "Error retrieving documents: " ++ exn_str e)])
          | Ok docs =>
              match format_prompt (chosen_template env pbn pen msg) (f docs) msg with
              | Raise e =>
                  (MkResponse (ErrorBody (exn_str e)) 500,
                   prelude env msg ++ [Print (u8 "Error in /chat endpoint: " ++ exn_str e)])
              | Ok prompt =>
                  match generation l prompt with
                  | Ok text =>
                      (MkResponse (ResponseBody text) 200,
                       prelude env msg
                       ++ [Call "llm.invoke" prompt; Print (u8 "Sending response: " ++ text)])
                  | Raise e =>
                      (generation_failed_response e,
                       prelude env msg
                       ++ [Call "llm.invoke" prompt;
                           Print (u8 "Error during LLM invocation: " ++ exn_str e)])
                  end
              end
          end
      | _ => (missing_message_response, [])
      end
  | _ => (not_loaded_response, [])
  end.

(** A small concrete deployment: an index over two chunks, one that
    always fails, a backend with a fixed reply, and detectors with a fixed
    answer or a fixed failure. *)
Definition demo_docs : list Document :=
  [MkDoc (u8 "Whoever commits theft shall be punished with imprisonment.") (u8 "section 379");
   MkDoc (u8 "Theft is defined in section 378.") (u8 "section 378")].

Definition demo_store (docs : list Document) : VectorStore :=
  MkStore (fun _ k => Ok (firstn k docs)).

Definition failing_store : VectorStore :=
  MkStore (fun _ _ => Raise (MkExn OtherException (u8 "index is corrupt"))).

Definition demo_reply : PyObject :=
  MkObj {["content"%string := u8 "Theft is punished under section 379."]} (u8 "AIMessage()").

Definition demo_llm : ChatOllama := MkLLM ollama_model (fun _ => Ok demo_reply).

Definition demo_env (detector : pystr -> result pystr) (store : VectorStore) : Env :=
  MkEnv detector (fun m => Ok (MkEmbeddings m)) (fun _ _ => Ok store) (fun _ => Ok demo_llm).

(** The world in which the server starts serving. *)
Definition started (env : Env) : World := snd (load_rag_components env initial_world).

Definition english_question : pystr := u8 "What is the punishment for theft under this act?".
Definition bengali_question : pystr := u8 "আইন কি?".

Definition detects (code : pystr) : pystr -> result pystr := fun _ => Ok code.
Definition detector_fails (kind : exn_class) : pystr -> result pystr :=
  fun _ => Raise (MkExn kind (u8 "No features in text.")).

(** [env] with its detector replaced. *)
Definition with_detect (env : Env) (detector : pystr -> result pystr) : Env :=
  MkEnv detector (HuggingFaceEmbeddings env) (FAISS_load_local env) (new_ChatOllama env).

(** The tag of the template the handler picks for a query. *)
Definition language_tag (env : Env) (msg : pystr) : LanguageTag :=
  if pystr_eqb (detected_lang env msg) bn then BN else EN.

(** The status classes of the interface, read off the HTTP status code:
    503 is "service unavailable", the other 5xx codes are internal errors,
    4xx codes are client errors. *)
Inductive StatusClass : Type :=
  | Success
  | ClientError
  | ServiceUnavailable
  | InternalError
  | Unclassified.

Definition status_class (code : Z) : StatusClass :=
  if (code =? 503)%Z then ServiceUnavailable
  else if ((200 <=? code) && (code <? 300))%Z then Success
  else if ((400 <=? code) && (code <? 500))%Z then ClientError
  else if ((500 <=? code) && (code <? 600))%Z then InternalError
  else Unclassified.


(** A response is well formed when it is a text with status 200 or an
    error with status 500. *)
Definition answered (resp : Response) : Prop :=
  (status resp = 200%Z /\ exists text, body resp = ResponseBody text)
  \/ (status resp = 500%Z /\ exists msg, body resp = ErrorBody msg).

(** The logged calls, without the printed lines. *)
Definition only_calls (evs : list event) : list event :=
  List.filter (fun ev => match ev with Call _ _ => true | Print _ => false end) evs.

(** Length of the fixed text of a template, the two slots left out. *)
Definition fixed_length (tag : LanguageTag) : Z :=
  match tag with
  | BN => 426
  | EN => 450
  end.

(** Start-up in closed form: what [load_rag_components] returns, the module
    variables it leaves and what it logs, from the variables it starts
    with. *)
Definition startup_outcome (env : Env) (g : Globals) : result bool * Globals * list event :=
  let banner :=
    [Print (u8 "Loading components for RAG...");
     Print (u8 "Loading embeddings model: " ++ embedding_model ++ u8 "...");
     Call "HuggingFaceEmbeddings" embedding_model] in
  match HuggingFaceEmbeddings env embedding_model with
  | Raise e => (Raise e, g, banner)
  | Ok embeddings =>
      let index :=
        banner ++ [Print (u8 "Loading vector store from " ++ folder_path ++ u8 "...");
                   Call "FAISS.load_local" folder_path] in
      match FAISS_load_local env folder_path embeddings with
      | Raise e =>
          (Ok false, g, index ++ [Print (u8 "Error loading FAISS index: " ++ exn_str e)])
      | Ok store =>
          let g1 := set_format_docs format_docs_func (set_retriever (as_retriever store 4) g) in
          let backend :=
            index ++ [Print (u8 "Vector store loaded successfully.");
                      Print (u8 "Initializing Ollama LLM (smollm2:360m)...");
                      Call "ChatOllama" ollama_model] in
          match new_ChatOllama env ollama_model with
          | Raise e =>
              (Ok false, g1, backend ++ [Print (u8 "Error connecting to Ollama: " ++ exn_str e)])
          | Ok l =>
              let probe := backend ++ [Call "llm.invoke" (u8 "Hello")] in
              match llm_invoke l (u8 "Hello") with
              | Raise e =>
                  (Ok false, set_llm l g1,
                   probe ++ [Print (u8 "Error connecting to Ollama: " ++ exn_str e)])
              | Ok _ =>
                  (Ok true,
                   set_QA_PROMPT_EN (from_template template_en)
                     (set_QA_PROMPT_BN (from_template template_bn) (set_llm l g1)),
                   probe ++ [Print (u8 "Ollama connection successful.");
                             Print (u8 "✅ RAG components are ready.")])
              end
          end
      end
  end.

(** Environments whose start-up steps have fixed outcomes, and a backend
    that refuses every call. *)
Definition env_with (embeddings : result Embeddings) (index : result VectorStore)
    (backend : result ChatOllama) : Env :=
  MkEnv (detects (u8 "en")) (fun _ => embeddings) (fun _ _ => index) (fun _ => backend).

Definition dead_llm : ChatOllama :=
  MkLLM ollama_model (fun _ => Raise (MkExn OtherException (u8 "connection refused"))).

Definition some_embeddings : Embeddings := MkEmbeddings embedding_model.

(** The detector is called, with the message as sent, exactly when the
    trimmed message is longer than 10 characters. *)
Definition detector_calls (msg : pystr) : list event :=
  if (10 <? py_len (strip msg))%Z then [Call "detect" msg] else [].

(** Total number of characters in the chunks. *)
Definition total_length (docs : list Document) : Z :=
  fold_right Z.add 0%Z (map (fun d => py_len (page_content d)) docs).

(** The concrete deployment for arbitrary bodies: values that are not
    text are shown as a fixed text and refused by the index. *)
Definition demo_raw_env : Raw.RawEnv :=
  Raw.MkRawEnv (demo_env (detects (u8 "en")) (demo_store demo_docs))
    (fun _ => u8 "<value>")
    (fun _ _ => Raise (MkExn OtherException (u8 "input must be text"))).

(** * Properties *)

(** ** The context formatter *)

Lemma join_cons_cons (sep x y : pystr) (rest : list pystr) :
  join sep (x :: y :: rest) = x ++ sep ++ join sep (y :: rest).
Proof. reflexivity. Qed.

Lemma format_docs_blank_line_separated (docs : list Document) :
  format_docs_func docs = blank_line_separated docs.
Proof.
  unfold format_docs_func, blank_line_separated.
  destruct docs as [|d rest]; [reflexivity|].
  revert d. induction rest as [|d' rest IH]; intros d.
  - cbn. now rewrite app_nil_r.
  - cbn [map flat_map]. rewrite join_cons_cons.
    cbn [map] in IH. rewrite IH. reflexivity.
Qed.

Lemma format_docs_app (x y : Document) (xs ys : list Document) :
  format_docs_func ((x :: xs) ++ y :: ys)
  = format_docs_func (x :: xs) ++ [10%N; 10%N] ++ format_docs_func (y :: ys).
Proof.
  rewrite !format_docs_blank_line_separated.
  cbn [app blank_line_separated].
  rewrite flat_map_app. cbn [flat_map].
  now rewrite <- !app_assoc.
Qed.

(** C4. The context formatter returns the chunk texts in the given order
    with exactly two newline characters between consecutive chunks: the
    empty sequence gives the empty string, a single chunk gives its text
    unchanged, the result always equals the first chunk followed by each
    further chunk preceded by two newlines, and formatting two non-empty
    sequences placed one after the other is the two formatted halves with
    two newlines in between.  The formatter is a total function, so no
    input makes it fail. *)
Theorem C4_format_docs_blank_line_join :
  format_docs_func [] = []
  /\ (forall d, format_docs_func [d] = page_content d)
  /\ (forall docs, format_docs_func docs = blank_line_separated docs)
  /\ (forall x xs y ys,
        format_docs_func ((x :: xs) ++ y :: ys)
        = format_docs_func (x :: xs) ++ [10%N; 10%N] ++ format_docs_func (y :: ys)).
Proof.
  repeat split.
  - intros docs. apply format_docs_blank_line_separated.
  - intros x xs y ys. apply format_docs_app.
Qed.

(** ** Stepping through the monad *)

Lemma extend_extend (w : World) (a b : list event) :
  extend (extend w a) b = extend w (a ++ b).
Proof. unfold extend. cbn. now rewrite app_assoc. Qed.

Lemma extend_nil (w : World) : extend w [] = w.
Proof. destruct w. unfold extend. cbn. now rewrite app_nil_r. Qed.

Lemma globals_extend (w : World) (evs : list event) : globals (extend w evs) = globals w.
Proof. reflexivity. Qed.

Lemma print_extend (line : pystr) (w : World) : print line w = (Ok tt, extend w [Print line]).
Proof. reflexivity. Qed.

Lemma call_extend {A} (callee : string) (arg : pystr) (outcome : result A) (w : World) :
  call callee arg outcome w = (outcome, extend w [Call callee arg]).
Proof. reflexivity. Qed.

Lemma events_of_extend {A} (m : M A) (w : World) (r : result A) (evs : list event) :
  m w = (r, extend w evs) -> events_of m w = evs.
Proof.
  intros E. unfold events_of. rewrite E. cbn.
  rewrite skipn_app, skipn_all, Nat.sub_diag. reflexivity.
Qed.

Lemma pystr_eqb_eq (s t : pystr) : pystr_eqb s t = true <-> s = t.
Proof.
  revert t. induction s as [|a s IH]; intros [|b t]; cbn; try easy.
  rewrite andb_true_iff, N.eqb_eq, IH. split.
  - intros [-> ->]. reflexivity.
  - intros E. injection E. auto.
Qed.

Lemma pystr_eqb_neq (s t : pystr) : pystr_eqb s t = false <-> s <> t.
Proof.
  rewrite <- pystr_eqb_eq. destruct (pystr_eqb s t); split; congruence.
Qed.

Lemma calls_to_app (callee : string) (a b : list event) :
  calls_to callee (a ++ b) = calls_to callee a ++ calls_to callee b.
Proof. unfold calls_to. apply flat_map_app. Qed.

(** Rewrites one monadic step into its effect on the world. *)
Ltac step :=
  unfold bind, try_except, ret, lift;
  repeat rewrite ?print_extend, ?call_extend, ?extend_extend;
  cbn [fst snd app].

(** ** The blocks of the handler, one case at a time *)

Lemma detect_language_short (env : Env) (msg : pystr) (w : World) :
  (py_len (strip msg) <= 10)%Z ->
  detect_language env msg w = (Ok bn, extend w [Print (u8 "Detected language: " ++ bn)]).
Proof.
  intros H. unfold detect_language.
  replace (10 <? py_len (strip msg))%Z with false by (symmetry; apply Z.ltb_ge; exact H).
  step. reflexivity.
Qed.

Lemma detect_language_detected (env : Env) (msg code : pystr) (w : World) :
  (10 < py_len (strip msg))%Z ->
  detect env msg = Ok code ->
  detect_language env msg w
  = (Ok code, extend w [Call "detect" msg; Print (u8 "Detected language: " ++ code)]).
Proof.
  intros H D. unfold detect_language.
  replace (10 <? py_len (strip msg))%Z with true by (symmetry; apply Z.ltb_lt; exact H).
  step. rewrite D. step. reflexivity.
Qed.

Lemma detect_language_raised (env : Env) (msg : pystr) (e : exn) (w : World) :
  (10 < py_len (strip msg))%Z ->
  detect env msg = Raise e ->
  detect_language env msg w
  = (Ok bn, extend w [Call "detect" msg; Print (detection_failure_line e)]).
Proof.
  intros H D. unfold detect_language.
  replace (10 <? py_len (strip msg))%Z with true by (symmetry; apply Z.ltb_lt; exact H).
  step. rewrite D. unfold detection_failure_line.
  destruct (exn_kind e); step; reflexivity.
Qed.

Lemma choose_prompt_bn (pbn pen : PromptTemplate) (w : World) :
  choose_prompt pbn pen bn w = (Ok pbn, extend w [Print (u8 "Using Bengali prompt.")]).
Proof. reflexivity. Qed.

Lemma choose_prompt_other (pbn pen : PromptTemplate) (code : pystr) (w : World) :
  code <> bn ->
  choose_prompt pbn pen code w = (Ok pen, extend w [Print (u8 "Using English prompt.")]).
Proof.
  intros H. unfold choose_prompt.
  apply pystr_eqb_neq in H. rewrite H. reflexivity.
Qed.

Lemma retrieve_context_found (r : Retriever) (f : list Document -> pystr)
    (msg : pystr) (docs : list Document) (w : World) :
  retriever_invoke r msg = Ok docs ->
  retrieve_context r f msg w = (Ok (inr (f docs)), extend w [Call "retriever.invoke" msg]).
Proof. intros H. unfold retrieve_context. step. rewrite H. reflexivity. Qed.

Lemma retrieve_context_raised (r : Retriever) (f : list Document -> pystr)
    (msg : pystr) (e : exn) (w : World) :
  retriever_invoke r msg = Raise e ->
  retrieve_context r f msg w
  = (Ok (inl (MkResponse (ErrorBody (u8 "Failed to retrieve relevant context.")) 500)),
     extend w [Call "retriever.invoke" msg;
               Print (u8 "Error retrieving documents: " ++ exn_str e)]).
Proof. intros H. unfold retrieve_context. step. rewrite H. step. reflexivity. Qed.

Lemma detect_language_run (env : Env) (msg : pystr) (w : World) :
  detect_language env msg w = (Ok (detected_lang env msg), extend w (detection_events env msg)).
Proof.
  unfold detected_lang, detection_events.
  destruct (10 <? py_len (strip msg))%Z eqn:L.
  - apply Z.ltb_lt in L. destruct (detect env msg) as [code|e] eqn:D.
    + now apply detect_language_detected.
    + now apply detect_language_raised.
  - apply Z.ltb_ge in L. now apply detect_language_short.
Qed.

Lemma detection_events_calls (env : Env) (msg : pystr) (callee : string) :
  callee <> "detect"%string -> calls_to callee (detection_events env msg) = [].
Proof.
  intros H.
  assert (E : String.eqb "detect" callee = false) by (apply String.eqb_neq; congruence).
  unfold detection_events.
  destruct (10 <? py_len (strip msg))%Z; [destruct (detect env msg)|];
    cbn [calls_to flat_map app]; rewrite ?E; reflexivity.
Qed.

Lemma choose_prompt_run (pbn pen : PromptTemplate) (code : pystr) (w : World) :
  choose_prompt pbn pen code w
  = (Ok (if pystr_eqb code bn then pbn else pen), extend w [Print (using_line code)]).
Proof. unfold choose_prompt, using_line. destruct (pystr_eqb code bn); reflexivity. Qed.

Lemma chat_loaded (env : Env) (l : ChatOllama) (r : Retriever) (f : list Document -> pystr)
    (pbn pen : PromptTemplate) (req : Request) (w : World) :
  globals w = MkGlobals (Some l) (Some r) (Some f) (Some pbn) (Some pen) ->
  chat env req w = try_except (chat_request env l r f pbn pen req) endpoint_handler w.
Proof.
  intros G. unfold chat, read_globals. unfold bind at 1. rewrite G. reflexivity.
Qed.

Lemma chat_not_loaded (env : Env) (req : Request) (w : World) :
  components_loaded (globals w) = false ->
  chat env req w = (Ok not_loaded_response, w).
Proof.
  intros G. unfold chat, read_globals. unfold bind at 1.
  unfold components_loaded in G.
  destruct (llm (globals w)); [|reflexivity].
  destruct (retriever (globals w)); [|reflexivity].
  destruct (format_docs (globals w)); [|reflexivity].
  destruct (QA_PROMPT_BN (globals w)); [|reflexivity].
  destruct (QA_PROMPT_EN (globals w)); [discriminate|reflexivity].
Qed.

Lemma components_loaded_inv (g : Globals) :
  components_loaded g = true ->
  exists l r f pbn pen, g = MkGlobals (Some l) (Some r) (Some f) (Some pbn) (Some pen).
Proof.
  destruct g as [[l|] [r|] [f|] [pbn|] [pen|]]; cbn; try discriminate.
  intros _. now exists l, r, f, pbn, pen.
Qed.

Lemma invoke_llm_run (l : ChatOllama) (prompt : pystr) (w : World) :
  invoke_llm l prompt w
  = match generation l prompt with
    | Ok text => (Ok (inr text), extend w [Call "llm.invoke" prompt])
    | Raise e =>
        (Ok (inl (generation_failed_response e)),
         extend w [Call "llm.invoke" prompt;
                   Print (u8 "Error during LLM invocation: " ++ exn_str e)])
    end.
Proof.
  unfold invoke_llm, generation. step.
  destruct (llm_invoke l prompt) as [o|e]; [destruct (extract_text o)|]; step; reflexivity.
Qed.

Lemma answer_run (l : ChatOllama) (t : PromptTemplate) (ctx msg prompt : pystr) (w : World) :
  format_prompt t ctx msg = Ok prompt ->
  answer l t ctx msg w
  = match generation l prompt with
    | Ok text =>
        (Ok (MkResponse (ResponseBody text) 200),
         extend w [Call "llm.invoke" prompt; Print (u8 "Sending response: " ++ text)])
    | Raise e =>
        (Ok (generation_failed_response e),
         extend w [Call "llm.invoke" prompt;
                   Print (u8 "Error during LLM invocation: " ++ exn_str e)])
    end.
Proof.
  intros F. unfold answer. unfold bind at 1, lift. rewrite F.
  unfold bind at 1. rewrite invoke_llm_run.
  destruct (generation l prompt); step; reflexivity.
Qed.

Lemma answer_format_raised (l : ChatOllama) (t : PromptTemplate) (ctx msg : pystr)
    (e : exn) (w : World) :
  format_prompt t ctx msg = Raise e -> answer l t ctx msg w = (Raise e, w).
Proof. intros F. unfold answer. unfold bind at 1, lift. rewrite F. reflexivity. Qed.

Lemma chat_request_missing (env : Env) (l : ChatOllama) (r : Retriever)
    (f : list Document -> pystr) (pbn pen : PromptTemplate) (req : Request) (w : World) :
  py_not (message req) = true ->
  chat_request env l r f pbn pen req w = (Ok missing_message_response, w).
Proof. intros H. unfold chat_request. rewrite H. reflexivity. Qed.

Lemma chat_request_run (env : Env) (l : ChatOllama) (r : Retriever)
    (f : list Document -> pystr) (pbn pen : PromptTemplate) (msg : pystr) (w : World) :
  msg <> [] ->
  chat_request env l r f pbn pen (MkRequest (Some msg)) w
  = match retriever_invoke r msg with
    | Ok docs =>
        answer l (if pystr_eqb (detected_lang env msg) bn then pbn else pen) (f docs) msg
          (extend w (received_line msg :: detection_events env msg
                     ++ [Call "retriever.invoke" msg;
                         Print (using_line (detected_lang env msg))]))
    | Raise e =>
        (Ok retrieval_failed_response,
         extend w (received_line msg :: detection_events env msg
                   ++ [Call "retriever.invoke" msg;
                       Print (u8 "Error retrieving documents: " ++ exn_str e)]))
    end.
Proof.
  intros NE. destruct msg as [|c msg]; [congruence|].
  unfold chat_request. cbn [py_not message].
  unfold bind at 1. rewrite print_extend.
  unfold bind at 1. rewrite detect_language_run, extend_extend.
  unfold bind at 1.
  destruct (retriever_invoke r (c :: msg)) as [docs|e] eqn:R.
  - rewrite (retrieve_context_found _ _ _ docs) by exact R.
    rewrite extend_extend. unfold bind at 1.
    rewrite choose_prompt_run, extend_extend.
    unfold received_line. cbn [app]. rewrite <- ?app_assoc. reflexivity.
  - rewrite (retrieve_context_raised _ _ _ e) by exact R.
    rewrite extend_extend. unfold ret, retrieval_failed_response, received_line.
    cbn [app]. rewrite <- ?app_assoc. reflexivity.
Qed.

(** ** The two templates, slot by slot *)

Lemma template_text_slots (tag : LanguageTag) :
  template_text tag
  = template_head tag ++ context_slot ++ template_between tag ++ question_slot ++ template_tail tag.
Proof. destruct tag; vm_compute; reflexivity. Qed.

Lemma format_prompt_rendered (tag : LanguageTag) (context question : pystr) :
  format_prompt (from_template (template_text tag)) context question
  = Ok (rendered tag context question).
Proof. destruct tag; vm_compute; reflexivity. Qed.

Lemma between_has_instruction (tag : LanguageTag) :
  template_between tag
  = firstn 6 (template_between tag) ++ fallback_instruction tag
    ++ skipn (6 + List.length (fallback_instruction tag)) (template_between tag).
Proof. destruct tag; vm_compute; reflexivity. Qed.

Lemma instruction_has_phrase (tag : LanguageTag) :
  occurs_in (refusal_phrase tag) (fallback_instruction tag).
Proof.
  destruct tag.
  - exists (u8 "যদি আপনি উত্তর না জানেন, তবে শুধু বাংলায় বলুন " ++ dq), (dq ++ u8 "।").
    unfold fallback_instruction. now rewrite <- !app_assoc.
  - exists (u8 "If you don't know the answer, just say " ++ dq), (dq ++ u8 " in English.").
    unfold fallback_instruction. now rewrite <- !app_assoc.
Qed.

Lemma occurs_in_trans (a b c : pystr) : occurs_in a b -> occurs_in b c -> occurs_in a c.
Proof.
  intros (p & q & ->) (p' & q' & ->).
  exists (p' ++ p), (q ++ q'). now rewrite <- !app_assoc.
Qed.

Lemma rendered_has_instruction (tag : LanguageTag) (context question : pystr) :
  occurs_in (fallback_instruction tag) (rendered tag context question).
Proof.
  exists (template_head tag ++ context ++ firstn 6 (template_between tag)),
         (skipn (6 + List.length (fallback_instruction tag)) (template_between tag)
          ++ question ++ template_tail tag).
  unfold rendered. rewrite (between_has_instruction tag) at 1.
  now rewrite <- !app_assoc.
Qed.

Lemma templates_differ : template_bn <> template_en.
Proof. intros E. apply (f_equal (@List.length N)) in E. vm_compute in E. discriminate. Qed.

(** ** Start-up *)

Lemma write_globals_run (f : Globals -> Globals) (w : World) :
  write_globals f w = (Ok tt, MkWorld (f (globals w)) (log w)).
Proof. reflexivity. Qed.

(** A successful start-up leaves all five variables set: the retriever
    asks for four neighbours, the formatter is [format_docs_func] and the
    templates are the two literals. *)
Lemma load_rag_components_ready (env : Env) (w w' : World) :
  load_rag_components env w = (Ok true, w') ->
  exists l store,
    globals w'
    = MkGlobals (Some l) (Some (as_retriever store 4)) (Some format_docs_func)
        (Some (from_template template_bn)) (Some (from_template template_en)).
Proof.
  unfold load_rag_components, load_vector_store, setup_llm.
  unfold bind, try_except, ret, print, emit, call, write_globals.
  cbn [fst snd globals log].
  destruct (HuggingFaceEmbeddings env embedding_model) as [emb|e]; [|discriminate].
  destruct (FAISS_load_local env folder_path emb) as [store|e]; [|discriminate].
  cbn [fst snd globals log].
  destruct (new_ChatOllama env ollama_model) as [l|e]; [|discriminate].
  cbn [fst snd globals log].
  destruct (llm_invoke l (u8 "Hello")) as [o|e]; [|discriminate].
  cbn [fst snd globals log].
  intros E. injection E as <-. exists l, store. reflexivity.
Qed.

(** Whenever start-up does not return [True], at least one variable is
    still [None]. *)
Lemma load_rag_components_not_ready (env : Env) (w' : World) (r : result bool) :
  load_rag_components env initial_world = (r, w') ->
  r <> Ok true ->
  components_loaded (globals w') = false.
Proof.
  unfold load_rag_components, load_vector_store, setup_llm.
  unfold bind, try_except, ret, print, emit, call, write_globals.
  cbn [fst snd globals log initial_world].
  destruct (HuggingFaceEmbeddings env embedding_model) as [emb|e];
    [|intros E; injection E as <- <-; reflexivity].
  destruct (FAISS_load_local env folder_path emb) as [store|e];
    [|intros E; injection E as <- <-; reflexivity].
  cbn [fst snd globals log].
  destruct (new_ChatOllama env ollama_model) as [l|e];
    [|intros E; injection E as <- <-; reflexivity].
  cbn [fst snd globals log].
  destruct (llm_invoke l (u8 "Hello")) as [o|e];
    [|intros E; injection E as <- <-; reflexivity].
  cbn [fst snd globals log].
  intros E. injection E as <- <-. congruence.
Qed.

(** ** The handler in closed form *)

Lemma chat_answered (env : Env) (l : ChatOllama) (r : Retriever) (f : list Document -> pystr)
    (pbn pen : PromptTemplate) (msg prompt : pystr) (docs : list Document) (w : World) :
  globals w = MkGlobals (Some l) (Some r) (Some f) (Some pbn) (Some pen) ->
  msg <> [] ->
  retriever_invoke r msg = Ok docs ->
  format_prompt (chosen_template env pbn pen msg) (f docs) msg = Ok prompt ->
  chat env (MkRequest (Some msg)) w
  = match generation l prompt with
    | Ok text =>
        (Ok (MkResponse (ResponseBody text) 200),
         extend w (prelude env msg
                   ++ [Call "llm.invoke" prompt; Print (u8 "Sending response: " ++ text)]))
    | Raise e =>
        (Ok (generation_failed_response e),
         extend w (prelude env msg
                   ++ [Call "llm.invoke" prompt;
                       Print (u8 "Error during LLM invocation: " ++ exn_str e)]))
    end.
Proof.
  intros G NE R F.
  rewrite (chat_loaded env l r f pbn pen) by exact G.
  unfold try_except. rewrite chat_request_run by exact NE. rewrite R.
  fold (chosen_template env pbn pen msg). fold (prelude env msg).
  rewrite (answer_run _ _ _ _ prompt) by exact F.
  destruct (generation l prompt); rewrite extend_extend; reflexivity.
Qed.

Lemma chat_retrieval_failed (env : Env) (l : ChatOllama) (r : Retriever)
    (f : list Document -> pystr) (pbn pen : PromptTemplate) (msg : pystr) (e : exn)
    (w : World) :
  globals w = MkGlobals (Some l) (Some r) (Some f) (Some pbn) (Some pen) ->
  msg <> [] ->
  retriever_invoke r msg = Raise e ->
  chat env (MkRequest (Some msg)) w
  = (Ok retrieval_failed_response,
     extend w (received_line msg :: detection_events env msg
               ++ [Call "retriever.invoke" msg;
                   Print (u8 "Error retrieving documents: " ++ exn_str e)])).
Proof.
  intros G NE R.
  rewrite (chat_loaded env l r f pbn pen) by exact G.
  unfold try_except. rewrite chat_request_run by exact NE. rewrite R. reflexivity.
Qed.

Lemma chat_missing (env : Env) (req : Request) (w : World) :
  components_loaded (globals w) = true ->
  py_not (message req) = true ->
  chat env req w = (Ok missing_message_response, w).
Proof.
  intros G H. apply components_loaded_inv in G as (l & r & f & pbn & pen & G).
  rewrite (chat_loaded env l r f pbn pen) by exact G.
  unfold try_except. rewrite chat_request_missing by exact H. reflexivity.
Qed.

Lemma prelude_calls_llm (env : Env) (msg : pystr) :
  calls_to "llm.invoke" (prelude env msg) = [].
Proof.
  change (prelude env msg)
    with ([received_line msg] ++ detection_events env msg
          ++ [Call "retriever.invoke" msg; Print (using_line (detected_lang env msg))]).
  rewrite !calls_to_app, detection_events_calls by discriminate. reflexivity.
Qed.

Lemma chat_run (env : Env) (req : Request) (w : World) :
  chat env req w
  = (Ok (fst (chat_outcome env (globals w) req)),
     extend w (snd (chat_outcome env (globals w) req))).
Proof.
  destruct (components_loaded (globals w)) eqn:L.
  - destruct (components_loaded_inv _ L) as (l & r & f & pbn & pen & G).
    destruct req as [[[|c s]|]].
    + rewrite chat_missing by (exact L || reflexivity).
      rewrite G. cbn. now rewrite extend_nil.
    + set (msg := c :: s). assert (NE : msg <> []) by discriminate.
      rewrite G. cbn [chat_outcome message]. fold msg.
      destruct (retriever_invoke r msg) as [docs|e] eqn:R.
      * destruct (format_prompt (chosen_template env pbn pen msg) (f docs) msg)
          as [prompt|e] eqn:F.
        -- rewrite (chat_answered env l r f pbn pen msg prompt docs) by assumption.
           destruct (generation l prompt); reflexivity.
        -- rewrite (chat_loaded env l r f pbn pen) by exact G.
           unfold try_except. rewrite chat_request_run by exact NE. rewrite R.
           fold (chosen_template env pbn pen msg). fold (prelude env msg).
           rewrite (answer_format_raised _ _ _ _ e) by exact F.
           unfold endpoint_handler. step. reflexivity.
      * now rewrite (chat_retrieval_failed env l r f pbn pen msg e).
    + rewrite chat_missing by (exact L || reflexivity).
      rewrite G. cbn. now rewrite extend_nil.
  - rewrite chat_not_loaded by exact L.
    unfold components_loaded in L.
    destruct (globals w) as [[l|] [r|] [f|] [pbn|] [pen|]]; cbn in L; try discriminate;
      cbn; now rewrite extend_nil.
Qed.

Lemma chat_events (env : Env) (req : Request) (w : World) :
  events_of (chat env req) w = snd (chat_outcome env (globals w) req).
Proof. eapply events_of_extend. apply chat_run. Qed.

Lemma chat_globals (env : Env) (req : Request) (w : World) :
  globals (snd (chat env req w)) = globals w.
Proof. rewrite chat_run. reflexivity. Qed.

Lemma strip_nonempty (msg : pystr) : (10 < py_len (strip msg))%Z -> msg <> [].
Proof. intros H ->. vm_compute in H. discriminate. Qed.

(** ** Language routing *)

(** C1. When the detected code is exactly "bn" the Bengali template is
    selected, and for every other detected code the English template is
    selected; in a handled request whose query the detector classified and
    whose retrieval succeeded, the backend is called exactly once, with the
    prompt rendered from that template. *)
Theorem C1_template_follows_detected_code (pbn pen : PromptTemplate) (code : pystr) :
  (code = bn ->
   forall w, choose_prompt pbn pen code w
             = (Ok pbn, extend w [Print (u8 "Using Bengali prompt.")]))
  /\ (code <> bn ->
      forall w, choose_prompt pbn pen code w
                = (Ok pen, extend w [Print (u8 "Using English prompt.")]))
  /\ (forall env l r f msg docs prompt w,
        globals w = MkGlobals (Some l) (Some r) (Some f) (Some pbn) (Some pen) ->
        (10 < py_len (strip msg))%Z ->
        detect env msg = Ok code ->
        retriever_invoke r msg = Ok docs ->
        (code = bn -> format_prompt pbn (f docs) msg = Ok prompt) ->
        (code <> bn -> format_prompt pen (f docs) msg = Ok prompt) ->
        calls_to "llm.invoke" (events_of (chat env (MkRequest (Some msg))) w) = [prompt]).
Proof.
  split; [|split].
  - intros -> w. apply choose_prompt_bn.
  - intros H w. now apply choose_prompt_other.
  - intros env l r f msg docs prompt w G L D R Fbn Fen.
    assert (DL : detected_lang env msg = code).
    { unfold detected_lang. apply Z.ltb_lt in L. now rewrite L, D. }
    assert (F : format_prompt (chosen_template env pbn pen msg) (f docs) msg = Ok prompt).
    { unfold chosen_template. rewrite DL.
      destruct (pystr_eqb code bn) eqn:E.
      - apply Fbn. now apply pystr_eqb_eq.
      - apply Fen. now apply pystr_eqb_neq. }
    rewrite chat_events, G. pose proof (strip_nonempty msg L) as NE.
    destruct msg as [|c s]; [congruence|].
    cbn [chat_outcome message]. rewrite R, F.
    destruct (generation l prompt); cbn [snd];
      rewrite calls_to_app, prelude_calls_llm; reflexivity.
Qed.

Lemma C1_template_follows_detected_code_witness :
  choose_prompt (from_template template_bn) (from_template template_en) bn initial_world
  = (Ok (from_template template_bn),
     extend initial_world [Print (u8 "Using Bengali prompt.")])
  /\ choose_prompt (from_template template_bn) (from_template template_en) (u8 "en")
       initial_world
     = (Ok (from_template template_en),
        extend initial_world [Print (u8 "Using English prompt.")])
  /\ calls_to "llm.invoke"
       (events_of (chat (demo_env (detects (u8 "en")) (demo_store demo_docs))
                        (MkRequest (Some english_question)))
                  (started (demo_env (detects (u8 "en")) (demo_store demo_docs))))
     = [rendered EN (format_docs_func demo_docs) english_question].
Proof.
  split; [|split].
  - apply (proj1 (C1_template_follows_detected_code
                    (from_template template_bn) (from_template template_en) bn)).
    reflexivity.
  - apply (proj1 (proj2 (C1_template_follows_detected_code
                           (from_template template_bn) (from_template template_en)
                           (u8 "en")))).
    vm_compute. discriminate.
  - apply (proj2 (proj2 (C1_template_follows_detected_code
                           (from_template template_bn) (from_template template_en)
                           (u8 "en")))
             (demo_env (detects (u8 "en")) (demo_store demo_docs))
             demo_llm (as_retriever (demo_store demo_docs) 4) format_docs_func
             english_question demo_docs).
    + vm_compute. reflexivity.
    + vm_compute. reflexivity.
    + reflexivity.
    + reflexivity.
    + intros E. exfalso. vm_compute in E. discriminate.
    + intros _. vm_compute. reflexivity.
Defined.

(** C2. For a query whose trimmed length is at most 10 characters,
    whatever its content: the language block leaves "bn" in
    [detected_lang] and logs only the detected-language line, the Bengali
    template is the one selected for that code, no request carrying the
    query ever calls the detector, and a handled request whose retrieval
    succeeded sends the backend the prompt rendered from the Bengali
    template. *)
Theorem C2_short_query_routes_to_bengali (env : Env) (msg : pystr) :
  (py_len (strip msg) <= 10)%Z ->
  (forall w, detect_language env msg w
             = (Ok bn, extend w [Print (u8 "Detected language: " ++ bn)]))
  /\ (forall pbn pen w, fst (choose_prompt pbn pen bn w) = Ok pbn)
  /\ (forall req w, message req = Some msg ->
                    calls_to "detect" (events_of (chat env req) w) = [])
  /\ (forall l r f pbn pen docs prompt w,
        globals w = MkGlobals (Some l) (Some r) (Some f) (Some pbn) (Some pen) ->
        msg <> [] ->
        retriever_invoke r msg = Ok docs ->
        format_prompt pbn (f docs) msg = Ok prompt ->
        calls_to "llm.invoke" (events_of (chat env (MkRequest (Some msg))) w) = [prompt]).
Proof.
  intros Short.
  assert (L : (10 <? py_len (strip msg))%Z = false) by (apply Z.ltb_ge; exact Short).
  assert (DE : detection_events env msg = [Print (u8 "Detected language: " ++ bn)]).
  { unfold detection_events. now rewrite L. }
  assert (DL : detected_lang env msg = bn).
  { unfold detected_lang. now rewrite L. }
  split; [|split; [|split]].
  - intros w. now apply detect_language_short.
  - intros pbn pen w. now rewrite choose_prompt_bn.
  - intros [m] w M. cbn in M. subst m. rewrite chat_events.
    unfold chat_outcome.
    destruct (globals w) as [[l|] [r|] [f|] [pbn|] [pen|]]; try reflexivity.
    cbn [message]. destruct msg as [|c s]; [reflexivity|].
    set (q := c :: s) in *.
    assert (P : calls_to "detect" (prelude env q) = []).
    { unfold prelude. rewrite DE. reflexivity. }
    destruct (retriever_invoke r q) as [docs|e].
    + destruct (format_prompt (chosen_template env pbn pen q) (f docs) q) as [prompt|e];
        [destruct (generation l prompt)|]; cbn [snd]; rewrite calls_to_app, P; reflexivity.
    + cbn [snd]. rewrite DE. reflexivity.
  - intros l r f pbn pen docs prompt w G NE R F.
    rewrite chat_events, G. destruct msg as [|c s]; [congruence|].
    cbn [chat_outcome message]. rewrite R.
    unfold chosen_template. rewrite DL. change (pystr_eqb bn bn) with true.
    cbn iota. rewrite F.
    destruct (generation l prompt); cbn [snd];
      rewrite calls_to_app, prelude_calls_llm; reflexivity.
Qed.

Lemma C2_short_query_routes_to_bengali_witness :
  detect_language (demo_env (detects (u8 "en")) (demo_store demo_docs)) bengali_question
    initial_world
  = (Ok bn, extend initial_world [Print (u8 "Detected language: " ++ bn)])
  /\ calls_to "detect"
       (events_of (chat (demo_env (detects (u8 "en")) (demo_store demo_docs))
                        (MkRequest (Some bengali_question)))
                  (started (demo_env (detects (u8 "en")) (demo_store demo_docs))))
     = []
  /\ calls_to "llm.invoke"
       (events_of (chat (demo_env (detects (u8 "en")) (demo_store demo_docs))
                        (MkRequest (Some bengali_question)))
                  (started (demo_env (detects (u8 "en")) (demo_store demo_docs))))
     = [rendered BN (format_docs_func demo_docs) bengali_question].
Proof.
  assert (Short : (py_len (strip bengali_question) <= 10)%Z)
    by (vm_compute; discriminate).
  pose proof (C2_short_query_routes_to_bengali
                (demo_env (detects (u8 "en")) (demo_store demo_docs))
                bengali_question Short) as (H1 & _ & H3 & H4).
  split; [|split].
  - apply H1.
  - apply H3. reflexivity.
  - apply (H4 demo_llm (as_retriever (demo_store demo_docs) 4) format_docs_func
              (from_template template_bn) (from_template template_en) demo_docs).
    + vm_compute. reflexivity.
    + vm_compute. discriminate.
    + reflexivity.
    + vm_compute. reflexivity.
Defined.

(** C3. When the detector raises on a query, whatever the exception class:
    the language block itself does not raise and leaves "bn" in
    [detected_lang]; the Bengali template is the one selected for that
    code; every request carrying the query gets exactly the response it
    would get had the detector answered "bn", so the failure is not
    surfaced; and a handled request whose retrieval succeeded sends the
    backend the prompt rendered from the Bengali template. *)
Theorem C3_detector_error_routes_to_bengali (env : Env) (msg : pystr) (e : exn) :
  detect env msg = Raise e ->
  (forall w, exists evs, detect_language env msg w = (Ok bn, extend w evs))
  /\ (forall pbn pen w, fst (choose_prompt pbn pen bn w) = Ok pbn)
  /\ (forall req w, message req = Some msg ->
                    fst (chat env req w) = fst (chat (with_detect env (detects bn)) req w))
  /\ (forall l r f pbn pen docs prompt w,
        globals w = MkGlobals (Some l) (Some r) (Some f) (Some pbn) (Some pen) ->
        msg <> [] ->
        retriever_invoke r msg = Ok docs ->
        format_prompt pbn (f docs) msg = Ok prompt ->
        calls_to "llm.invoke" (events_of (chat env (MkRequest (Some msg))) w) = [prompt]
        /\ fst (chat env (MkRequest (Some msg)) w)
           = Ok match generation l prompt with
                | Ok text => MkResponse (ResponseBody text) 200
                | Raise e' => generation_failed_response e'
                end).
Proof.
  intros D.
  assert (DL : detected_lang env msg = bn).
  { unfold detected_lang. rewrite D. now destruct (10 <? py_len (strip msg))%Z. }
  assert (DL' : detected_lang (with_detect env (detects bn)) msg = bn).
  { unfold detected_lang. cbn. now destruct (10 <? py_len (strip msg))%Z. }
  split; [|split; [|split]].
  - intros w. rewrite detect_language_run, DL. eauto.
  - intros pbn pen w. now rewrite choose_prompt_bn.
  - intros [m] w M. cbn in M. subst m. rewrite !chat_run. cbn [fst]. f_equal.
    unfold chat_outcome.
    destruct (globals w) as [[l|] [r|] [f|] [pbn|] [pen|]]; try reflexivity.
    cbn [message]. destruct msg as [|c s]; [reflexivity|].
    unfold chosen_template. rewrite DL, DL'.
    destruct (retriever_invoke r (c :: s)) as [docs|e0]; [|reflexivity].
    destruct (format_prompt _ (f docs) (c :: s)) as [prompt|e0]; [|reflexivity].
    destruct (generation l prompt); reflexivity.
  - intros l r f pbn pen docs prompt w G NE R F.
    rewrite chat_events, chat_run, G. destruct msg as [|c s]; [congruence|].
    cbn [chat_outcome message]. rewrite R.
    unfold chosen_template. rewrite DL. change (pystr_eqb bn bn) with true.
    cbn iota. rewrite F.
    destruct (generation l prompt); cbn [fst snd];
      rewrite calls_to_app, prelude_calls_llm; split; reflexivity.
Qed.

Lemma C3_detector_error_routes_to_bengali_witness :
  (exists evs,
      detect_language (demo_env (detector_fails LangDetectException) (demo_store demo_docs))
        english_question initial_world
      = (Ok bn, extend initial_world evs))
  /\ fst (chat (demo_env (detector_fails OtherException) (demo_store demo_docs))
               (MkRequest (Some english_question))
               (started (demo_env (detector_fails OtherException) (demo_store demo_docs))))
     = Ok (MkResponse (ResponseBody (u8 "Theft is punished under section 379.")) 200).
Proof.
  split.
  - apply (proj1 (C3_detector_error_routes_to_bengali
                    (demo_env (detector_fails LangDetectException) (demo_store demo_docs))
                    english_question
                    (MkExn LangDetectException (u8 "No features in text."))
                    eq_refl)).
  - pose proof (C3_detector_error_routes_to_bengali
                  (demo_env (detector_fails OtherException) (demo_store demo_docs))
                  english_question
                  (MkExn OtherException (u8 "No features in text."))
                  eq_refl) as (_ & _ & _ & H).
    specialize (H demo_llm (as_retriever (demo_store demo_docs) 4) format_docs_func
                  (from_template template_bn) (from_template template_en) demo_docs
                  (rendered BN (format_docs_func demo_docs) english_question)).
    specialize (H (started (demo_env (detector_fails OtherException) (demo_store demo_docs)))).
    destruct H as [_ E].
    + vm_compute. reflexivity.
    + vm_compute. discriminate.
    + reflexivity.
    + vm_compute. reflexivity.
    + rewrite E. vm_compute. reflexivity.
Defined.

(** ** The assembled prompt *)

Lemma format_prompt_bn (context question : pystr) :
  format_prompt (from_template template_bn) context question
  = Ok (rendered BN context question).
Proof. vm_compute. reflexivity. Qed.

Lemma format_prompt_en (context question : pystr) :
  format_prompt (from_template template_en) context question
  = Ok (rendered EN context question).
Proof. vm_compute. reflexivity. Qed.

(** C5. With zero retrieved chunks the context text is the empty string;
    each template is its fixed text around the two slots, the prompt
    assembled from it has the empty string in the context slot, and it still
    contains the fallback instruction of its language, with the refusal
    phrase that instruction quotes.  After a successful start-up, a handled
    request whose retrieval returns no chunk sends the backend exactly that
    prompt, for the language chosen for the query. *)
Theorem C5_empty_retrieval_keeps_fallback_instruction (tag : LanguageTag) (question : pystr) :
  format_docs_func [] = []
  /\ template_text tag
     = template_head tag ++ context_slot ++ template_between tag
       ++ question_slot ++ template_tail tag
  /\ format_prompt (from_template (template_text tag)) (format_docs_func []) question
     = Ok (template_head tag ++ [] ++ template_between tag ++ question ++ template_tail tag)
  /\ occurs_in (fallback_instruction tag) (rendered tag (format_docs_func []) question)
  /\ occurs_in (refusal_phrase tag) (rendered tag (format_docs_func []) question)
  /\ (forall env w0 w r,
        load_rag_components env w0 = (Ok true, w) ->
        retriever (globals w) = Some r ->
        question <> [] ->
        retriever_invoke r question = Ok [] ->
        language_tag env question = tag ->
        calls_to "llm.invoke" (events_of (chat env (MkRequest (Some question))) w)
        = [rendered tag [] question]).
Proof.
  split; [reflexivity|].
  split; [apply template_text_slots|].
  split; [apply (format_prompt_rendered tag [] question)|].
  split; [apply rendered_has_instruction|].
  split.
  { eapply occurs_in_trans; [apply instruction_has_phrase|apply rendered_has_instruction]. }
  intros env w0 w r Started Hr NE R T.
  destruct (load_rag_components_ready env w0 w Started) as (l & store & G).
  rewrite G in Hr. cbn in Hr. injection Hr as <-.
  rewrite chat_events, G. destruct question as [|c s]; [congruence|].
  cbn [chat_outcome message]. set (q := c :: s) in *. rewrite R.
  assert (F : format_prompt
                (chosen_template env (from_template template_bn) (from_template template_en) q)
                (format_docs_func []) q
              = Ok (rendered tag [] q)).
  { unfold chosen_template. unfold language_tag in T.
    destruct (pystr_eqb (detected_lang env q) bn); subst tag.
    - apply format_prompt_bn.
    - apply format_prompt_en. }
  rewrite F.
  destruct (generation l (rendered tag [] q)); cbn [snd];
    rewrite calls_to_app, prelude_calls_llm; reflexivity.
Qed.

Lemma C5_empty_retrieval_keeps_fallback_instruction_witness :
  calls_to "llm.invoke"
    (events_of (chat (demo_env (detects (u8 "en")) (demo_store []))
                     (MkRequest (Some english_question)))
               (started (demo_env (detects (u8 "en")) (demo_store []))))
  = [rendered EN [] english_question].
Proof.
  apply (proj2 (proj2 (proj2 (proj2 (proj2
           (C5_empty_retrieval_keeps_fallback_instruction EN english_question)))))
           (demo_env (detects (u8 "en")) (demo_store [])) initial_world
           (started (demo_env (detects (u8 "en")) (demo_store [])))
           (as_retriever (demo_store []) 4)).
  - vm_compute. reflexivity.
  - vm_compute. reflexivity.
  - vm_compute. discriminate.
  - reflexivity.
  - vm_compute. reflexivity.
Defined.

(** ** Error responses *)

(** ** Requests with an arbitrary body *)

(** On a text message the general blocks are the blocks of [chat]. *)
Lemma raw_detect_language_text (env : Raw.RawEnv) (s : pystr) (w : World) :
  Raw.detect_language env (Raw.PStr s) w = detect_language (Raw.base env) s w.
Proof. reflexivity. Qed.

Lemma raw_retrieve_context_text (env : Raw.RawEnv) (r : Retriever)
    (f : list Document -> pystr) (s : pystr) (w : World) :
  Raw.retrieve_context env r f (Raw.PStr s) w = retrieve_context r f s w.
Proof. reflexivity. Qed.

Lemma raw_handle_message_text (env : Raw.RawEnv) (l : ChatOllama) (r : Retriever)
    (f : list Document -> pystr) (pbn pen : PromptTemplate) (s : pystr) (w : World) :
  s <> [] ->
  Raw.handle_message env l r f pbn pen (Raw.PStr s) w
  = chat_request (Raw.base env) l r f pbn pen (MkRequest (Some s)) w.
Proof.
  intros NE. destruct s as [|c s]; [congruence|]. reflexivity.
Qed.

Lemma raw_chat_loaded (env : Raw.RawEnv) (l : ChatOllama) (r : Retriever)
    (f : list Document -> pystr) (pbn pen : PromptTemplate) (req : Raw.RawRequest)
    (w : World) :
  globals w = MkGlobals (Some l) (Some r) (Some f) (Some pbn) (Some pen) ->
  Raw.chat env req w
  = try_except (Raw.chat_request env l r f pbn pen req) endpoint_handler w.
Proof.
  intros G. unfold Raw.chat, read_globals. unfold bind at 1. rewrite G. reflexivity.
Qed.

Lemma raw_chat_not_loaded (env : Raw.RawEnv) (req : Raw.RawRequest) (w : World) :
  components_loaded (globals w) = false ->
  Raw.chat env req w = (Ok not_loaded_response, w).
Proof.
  intros G. unfold Raw.chat, read_globals. unfold bind at 1.
  unfold components_loaded in G.
  destruct (llm (globals w)); [|reflexivity].
  destruct (retriever (globals w)); [|reflexivity].
  destruct (format_docs (globals w)); [|reflexivity].
  destruct (QA_PROMPT_BN (globals w)); [|reflexivity].
  destruct (QA_PROMPT_EN (globals w)); [discriminate|reflexivity].
Qed.

Lemma raw_chat_request_parsed (env : Raw.RawEnv) (l : ChatOllama) (r : Retriever)
    (f : list Document -> pystr) (pbn pen : PromptTemplate) (req : Raw.RawRequest)
    (data v : Raw.pyvalue) (w : World) :
  Raw.request_json req = Ok data ->
  Raw.py_get data "message" = Ok v ->
  Raw.chat_request env l r f pbn pen req w
  = if Raw.truthy v
    then Raw.handle_message env l r f pbn pen v w
    else (Ok missing_message_response, w).
Proof.
  intros J G. unfold Raw.chat_request. unfold bind at 1. unfold lift at 1. rewrite J.
  unfold bind at 1. unfold lift at 1. rewrite G.
  destruct (Raw.truthy v); reflexivity.
Qed.

(** The general handler agrees with [chat] on every body that is a JSON
    object whose message is absent, [null] or text. *)
Lemma raw_chat_object_body (env : Raw.RawEnv) (req : Raw.RawRequest)
    (fields : gmap string Raw.pyvalue) (w : World) :
  Raw.request_json req = Ok (Raw.PDict fields) ->
  (fields !! "message"%string = None \/ fields !! "message"%string = Some Raw.PNone ->
   Raw.chat env req w = chat (Raw.base env) (MkRequest None) w)
  /\ (forall s, fields !! "message"%string = Some (Raw.PStr s) ->
                Raw.chat env req w = chat (Raw.base env) (MkRequest (Some s)) w).
Proof.
  intros J. destruct (components_loaded (globals w)) eqn:L.
  - destruct (components_loaded_inv _ L) as (l & r & f & pbn & pen & G).
    rewrite (raw_chat_loaded env l r f pbn pen req w G).
    split.
    + intros H. rewrite (chat_loaded (Raw.base env) l r f pbn pen _ w G).
      unfold try_except.
      rewrite (raw_chat_request_parsed env l r f pbn pen req (Raw.PDict fields) Raw.PNone w J)
        by (cbn [Raw.py_get]; destruct H as [-> | ->]; reflexivity).
      reflexivity.
    + intros s H. rewrite (chat_loaded (Raw.base env) l r f pbn pen _ w G).
      unfold try_except.
      rewrite (raw_chat_request_parsed env l r f pbn pen req (Raw.PDict fields) (Raw.PStr s) w J)
        by (cbn [Raw.py_get]; rewrite H; reflexivity).
      destruct s as [|c s]; [reflexivity|].
      cbn [Raw.truthy]. rewrite raw_handle_message_text by discriminate. reflexivity.
  - rewrite raw_chat_not_loaded by exact L.
    split; intros; now rewrite chat_not_loaded.
Qed.

Lemma raw_chat_body_of (env : Raw.RawEnv) (req : Request) (w : World) :
  Raw.chat env (Raw.body_of req) w = chat (Raw.base env) req w.
Proof.
  destruct req as [[s|]].
  - apply (proj2 (raw_chat_object_body env (Raw.body_of (MkRequest (Some s)))
                    {["message"%string := Raw.PStr s]} w eq_refl)).
    apply lookup_singleton_eq.
  - apply (proj1 (raw_chat_object_body env (Raw.body_of (MkRequest None)) ∅ w eq_refl)).
    left. apply lookup_empty.
Qed.

(** The language block on a message that is not text: [strip] raises, the
    general [except] clause prints and the code stays "bn". *)
Lemma raw_detect_language_run (env : Raw.RawEnv) (v : Raw.pyvalue) (w : World) :
  exists evs,
    Raw.detect_language env v w
    = (Ok match v with
          | Raw.PStr s => detected_lang (Raw.base env) s
          | _ => bn
          end, extend w evs)
    /\ calls_to "llm.invoke" evs = [].
Proof.
  assert (NonText : forall attr_owner : Raw.pyvalue,
             Raw.py_strip attr_owner = Raise (Raw.attribute_error attr_owner (u8 "strip")) ->
             Raw.detect_language env attr_owner w
             = (Ok bn, extend w [Print (detection_failure_line
                                          (Raw.attribute_error attr_owner (u8 "strip")))])).
  { intros v0 S. unfold Raw.detect_language, try_except. unfold bind at 1. unfold lift at 1.
    rewrite S. unfold Raw.detection_except, detection_failure_line.
    change (exn_kind (Raw.attribute_error v0 (u8 "strip"))) with AttributeError.
    cbn iota. step. reflexivity. }
  destruct v; try (eexists; split; [apply NonText; reflexivity|reflexivity]).
  exists (detection_events (Raw.base env) s). split.
  - rewrite raw_detect_language_text. apply detect_language_run.
  - apply detection_events_calls. discriminate.
Qed.

Lemma raw_retrieve_context_run (env : Raw.RawEnv) (r : Retriever)
    (f : list Document -> pystr) (v : Raw.pyvalue) (w : World) :
  Raw.retrieve_context env r f v w
  = match Raw.invoke env r v with
    | Ok docs => (Ok (inr (f docs)), extend w [Call "retriever.invoke" (Raw.show env v)])
    | Raise e =>
        (Ok (inl retrieval_failed_response),
         extend w [Call "retriever.invoke" (Raw.show env v);
                   Print (u8 "Error retrieving documents: " ++ exn_str e)])
    end.
Proof.
  unfold Raw.retrieve_context. step.
  destruct (Raw.invoke env r v); step; reflexivity.
Qed.

Lemma answer_answered (l : ChatOllama) (t : PromptTemplate) (ctx q : pystr) (w : World) :
  match fst (answer l t ctx q w) with
  | Ok resp => answered resp
  | Raise _ => True
  end.
Proof.
  destruct (format_prompt t ctx q) as [prompt|e] eqn:F.
  - rewrite (answer_run l t ctx q prompt w F).
    destruct (generation l prompt) as [text|e]; cbn [fst].
    + left. cbn [status body]. eauto.
    + right. unfold generation_failed_response. cbn [status body]. eauto.
  - rewrite (answer_format_raised l t ctx q e w F). exact I.
Qed.

Lemma raw_handle_message_answered (env : Raw.RawEnv) (l : ChatOllama) (r : Retriever)
    (f : list Document -> pystr) (pbn pen : PromptTemplate) (v : Raw.pyvalue) (w : World) :
  match fst (Raw.handle_message env l r f pbn pen v w) with
  | Ok resp => answered resp
  | Raise _ => True
  end.
Proof.
  unfold Raw.handle_message. unfold bind at 1. rewrite print_extend.
  unfold bind at 1.
  destruct (raw_detect_language_run env v (extend w [Print (u8 "Received query: "
                                                            ++ Raw.show env v)]))
    as (evs & D & _).
  rewrite D. unfold bind at 1. rewrite raw_retrieve_context_run.
  destruct (Raw.invoke env r v) as [docs|e].
  - unfold bind at 1. rewrite choose_prompt_run. apply answer_answered.
  - unfold ret. cbn [fst]. right. unfold retrieval_failed_response. cbn [status body]. eauto.
Qed.

Lemma raw_chat_answer (env : Raw.RawEnv) (req : Raw.RawRequest) (w : World) :
  exists resp,
    fst (Raw.chat env req w) = Ok resp
    /\ ((components_loaded (globals w) = true
         /\ (exists data v, Raw.request_json req = Ok data
                            /\ Raw.py_get data "message" = Ok v
                            /\ Raw.truthy v = false)
         /\ resp = missing_message_response)
        \/ ((components_loaded (globals w) = false
             \/ ~ (exists data v, Raw.request_json req = Ok data
                                  /\ Raw.py_get data "message" = Ok v
                                  /\ Raw.truthy v = false))
            /\ answered resp)).
Proof.
  destruct (components_loaded (globals w)) eqn:L.
  - destruct (components_loaded_inv _ L) as (l & r & f & pbn & pen & G).
    rewrite (raw_chat_loaded env l r f pbn pen req w G). unfold try_except.
    destruct (Raw.request_json req) as [data|e] eqn:J.
    + destruct (Raw.py_get data "message") as [v|e] eqn:P.
      * rewrite (raw_chat_request_parsed env l r f pbn pen req data v w J P).
        destruct (Raw.truthy v) eqn:T.
        -- pose proof (raw_handle_message_answered env l r f pbn pen v w) as H.
           destruct (Raw.handle_message env l r f pbn pen v w) as [[resp|e] w'];
             cbn [fst] in *.
           ++ exists resp. split; [reflexivity|]. right. split; [|exact H].
              right. intros (d & v' & Ed & Ev & Ef). congruence.
           ++ eexists. split; [reflexivity|]. right. split.
              ** right. intros (d & v' & Ed & Ev & Ef). congruence.
              ** right. cbn [status body]. eauto.
        -- exists missing_message_response. split; [reflexivity|]. left.
           split; [reflexivity|]. split; [|reflexivity]. exists data, v. auto.
      * unfold Raw.chat_request. unfold bind at 1. unfold lift at 1. rewrite J.
        unfold bind at 1. unfold lift at 1. rewrite P.
        eexists. split; [reflexivity|]. right. split.
        -- right. intros (d & v' & Ed & Ev & Ef). congruence.
        -- right. cbn [status body]. eauto.
    + unfold Raw.chat_request. unfold bind at 1. unfold lift at 1. rewrite J.
      eexists. split; [reflexivity|]. right. split.
      * right. intros (d & v' & Ed & Ev & Ef). congruence.
      * right. cbn [status body]. eauto.
  - rewrite raw_chat_not_loaded by exact L.
    exists not_loaded_response. split; [reflexivity|]. right. split; [now left|].
    right. unfold not_loaded_response. cbn [status body]. eauto.
Qed.

(** For C6: the claim as stated fails.  Before start-up, a request whose
    body is an object with an empty message is answered with the
    components-not-loaded response; and on a loaded service a request whose
    body is a JSON list, which has no message either, is answered by the
    catch-all with the text of the [AttributeError].  Both have status 500,
    which is not a client error. *)
Lemma C6_counterexample :
  fst (Raw.chat demo_raw_env
         (Raw.MkRawRequest (Ok (Raw.PDict {["message"%string := Raw.PStr []]})))
         initial_world)
  = Ok (MkResponse (ErrorBody (u8 "RAG components are not loaded. Check server logs.")) 500)
  /\ fst (Raw.chat demo_raw_env (Raw.MkRawRequest (Ok (Raw.PList [])))
            (started (Raw.base demo_raw_env)))
     = Ok (MkResponse (ErrorBody (u8 "'list' object has no attribute 'get'")) 500)
  /\ status_class 500 <> ClientError.
Proof.
  split; [vm_compute; reflexivity|].
  split; [vm_compute; reflexivity|].
  vm_compute. discriminate.
Qed.

(** C6 (amended). For a request whose body is a JSON object in which the
    message is missing (absent or [null]) or is the empty string: when the
    components are loaded the handler answers at once with the
    missing-message response, a client error (status 400), and leaves the
    world exactly as it was, so nothing is logged (no retrieval, no prompt
    assembly, no generation) and the module variables are untouched; while
    the components are not loaded it answers with the components-not-loaded
    error instead. *)
Theorem C6_missing_message_in_object_body
    (env : Raw.RawEnv) (req : Raw.RawRequest) (fields : gmap string Raw.pyvalue) (w : World) :
  Raw.request_json req = Ok (Raw.PDict fields) ->
  fields !! "message"%string = None
  \/ fields !! "message"%string = Some Raw.PNone
  \/ fields !! "message"%string = Some (Raw.PStr []) ->
  (components_loaded (globals w) = true ->
   Raw.chat env req w
   = (Ok (MkResponse (ErrorBody (u8 "No 'message' found in request")) 400), w)
   /\ status_class 400 = ClientError
   /\ events_of (Raw.chat env req) w = [])
  /\ (components_loaded (globals w) = false ->
      Raw.chat env req w
      = (Ok (MkResponse (ErrorBody (u8 "RAG components are not loaded. Check server logs."))
               500), w)).
Proof.
  intros J M.
  destruct (raw_chat_object_body env req fields w J) as [Absent Text].
  assert (E : exists m, py_not m = true
                        /\ Raw.chat env req w = chat (Raw.base env) (MkRequest m) w).
  { destruct M as [M|[M|M]].
    - exists None. split; [reflexivity|]. apply Absent. now left.
    - exists None. split; [reflexivity|]. apply Absent. now right.
    - exists (Some []). split; [reflexivity|]. now apply Text. }
  destruct E as (m & P & E).
  split.
  - intros L.
    assert (R : Raw.chat env req w = (Ok missing_message_response, w)).
    { rewrite E. now apply chat_missing. }
    split; [exact R|]. split; [reflexivity|].
    apply (events_of_extend _ _ (Ok missing_message_response)).
    rewrite extend_nil. exact R.
  - intros L. now apply raw_chat_not_loaded.
Qed.

Lemma C6_missing_message_in_object_body_witness :
  Raw.chat demo_raw_env
    (Raw.MkRawRequest (Ok (Raw.PDict {["message"%string := Raw.PStr []]})))
    (started (Raw.base demo_raw_env))
  = (Ok (MkResponse (ErrorBody (u8 "No 'message' found in request")) 400),
     started (Raw.base demo_raw_env))
  /\ Raw.chat demo_raw_env (Raw.MkRawRequest (Ok (Raw.PDict ∅))) initial_world
     = (Ok (MkResponse (ErrorBody (u8 "RAG components are not loaded. Check server logs."))
              500), initial_world).
Proof.
  split.
  - apply (proj1 (C6_missing_message_in_object_body demo_raw_env
                    (Raw.MkRawRequest (Ok (Raw.PDict {["message"%string := Raw.PStr []]})))
                    {["message"%string := Raw.PStr []]}
                    (started (Raw.base demo_raw_env))
                    eq_refl (or_intror (or_intror (lookup_singleton_eq _ _))))).
    vm_compute. reflexivity.
  - apply (proj2 (C6_missing_message_in_object_body demo_raw_env
                    (Raw.MkRawRequest (Ok (Raw.PDict ∅))) ∅ initial_world
                    eq_refl (or_introl (lookup_empty _)))).
    reflexivity.
Defined.

(** For C7: the claim as stated fails.  The response sent while the
    components are not loaded has status 500, which is the internal-error
    class and not the service-unavailable class, and it is the very status
    of the response sent when the index search fails. *)
Lemma C7_counterexample :
  fst (chat (demo_env (detects (u8 "en")) (demo_store demo_docs))
            (MkRequest (Some english_question)) initial_world)
  = Ok (MkResponse (ErrorBody (u8 "RAG components are not loaded. Check server logs.")) 500)
  /\ fst (chat (demo_env (detects (u8 "en")) failing_store)
               (MkRequest (Some english_question))
               (started (demo_env (detects (u8 "en")) failing_store)))
     = Ok (MkResponse (ErrorBody (u8 "Failed to retrieve relevant context.")) 500)
  /\ status_class 500 = InternalError
  /\ status_class 500 <> ServiceUnavailable.
Proof.
  split; [reflexivity|].
  split; [vm_compute; reflexivity|].
  split; [reflexivity|discriminate].
Qed.

(** C7 (amended). While the components are not loaded, and in particular
    after a start-up that did not return [True], every request is answered
    with the components-not-loaded error and status 500.  That status
    differs from the 400 of the missing-message response, but it is the
    same status, in the internal-error class, as the one used for retrieval
    and generation failures; those responses differ from it only in their
    error message. *)
Theorem C7_not_loaded_answer_is_status_500 (env : Env) (req : Request) (w : World) :
  components_loaded (globals w) = false ->
  chat env req w
  = (Ok (MkResponse (ErrorBody (u8 "RAG components are not loaded. Check server logs.")) 500),
     w)
  /\ status_class (status not_loaded_response) = InternalError
  /\ status not_loaded_response <> status missing_message_response
  /\ status not_loaded_response = status retrieval_failed_response
  /\ (forall e, status not_loaded_response = status (generation_failed_response e))
  /\ body not_loaded_response <> body retrieval_failed_response
  /\ (forall e, body not_loaded_response <> body (generation_failed_response e))
  /\ (forall env' r w',
        load_rag_components env' initial_world = (r, w') ->
        r <> Ok true ->
        chat env' req w' = (Ok not_loaded_response, w')).
Proof.
  intros L.
  split; [now apply chat_not_loaded|].
  split; [vm_compute; reflexivity|].
  split; [vm_compute; discriminate|].
  split; [vm_compute; reflexivity|].
  split; [intros e; vm_compute; reflexivity|].
  split; [vm_compute; discriminate|].
  split.
  - intros e E. unfold generation_failed_response, not_loaded_response in E.
    cbn [body] in E. injection E as E. vm_compute in E. discriminate.
  - intros env' r w' S NT. apply chat_not_loaded.
    now apply (load_rag_components_not_ready env' w' r).
Qed.

Lemma C7_not_loaded_answer_is_status_500_witness :
  chat (demo_env (detects (u8 "en")) (demo_store demo_docs))
       (MkRequest (Some english_question)) initial_world
  = (Ok (MkResponse (ErrorBody (u8 "RAG components are not loaded. Check server logs.")) 500),
     initial_world).
Proof.
  apply (proj1 (C7_not_loaded_answer_is_status_500
                  (demo_env (detects (u8 "en")) (demo_store demo_docs))
                  (MkRequest (Some english_question)) initial_world eq_refl)).
Defined.

(** The index is searched only while a request with a non-empty message is
    handled by a loaded service, and then with that message. *)
Lemma retriever_called_only_when_handling (env : Env) (req : Request) (w : World) (q : pystr) :
  In q (calls_to "retriever.invoke" (events_of (chat env req) w)) ->
  components_loaded (globals w) = true /\ message req = Some q /\ q <> [].
Proof.
  rewrite chat_events. unfold chat_outcome.
  destruct (globals w) as [[l|] [r|] [f|] [pbn|] [pen|]]; try (intros []).
  destruct req as [[[|c s]|]]; cbn [message]; try (intros []).
  set (msg := c :: s).
  assert (D : calls_to "retriever.invoke" (detection_events env msg) = [])
    by (apply detection_events_calls; discriminate).
  assert (P : calls_to "retriever.invoke" (prelude env msg) = [msg]).
  { change (prelude env msg)
      with ([received_line msg] ++ detection_events env msg
            ++ [Call "retriever.invoke" msg; Print (using_line (detected_lang env msg))]).
    rewrite !calls_to_app, D. reflexivity. }
  assert (Q : forall line,
             calls_to "retriever.invoke"
               (received_line msg :: detection_events env msg
                ++ [Call "retriever.invoke" msg; Print line]) = [msg]).
  { intros line.
    change (received_line msg :: detection_events env msg
            ++ [Call "retriever.invoke" msg; Print line])
      with ([received_line msg] ++ detection_events env msg
            ++ [Call "retriever.invoke" msg; Print line]).
    rewrite !calls_to_app, D. reflexivity. }
  assert (Fin : forall evs, calls_to "retriever.invoke" evs = [msg] ->
                             In q (calls_to "retriever.invoke" evs) ->
                             true = true /\ Some msg = Some q /\ q <> []).
  { intros evs -> [<- | []]. repeat split. discriminate. }
  destruct (retriever_invoke r msg) as [docs|e].
  - destruct (format_prompt (chosen_template env pbn pen msg) (f docs) msg) as [prompt|e];
      [destruct (generation l prompt)|]; cbn [snd]; apply Fin;
      rewrite calls_to_app, P; reflexivity.
  - cbn [snd]. apply Fin. apply Q.
Qed.

(** C8. When the index search raises while a request is handled, the
    caller receives the error "Failed to retrieve relevant context." with
    status 500, the backend is not called for that request, and the module
    variables are what they were: the service is still loaded and answers
    any next request exactly as it would have before. *)
Theorem C8_retrieval_failure_leaves_service_ready
    (env : Env) (l : ChatOllama) (r : Retriever) (f : list Document -> pystr)
    (pbn pen : PromptTemplate) (req : Request) (msg : pystr) (e : exn) (w : World) :
  globals w = MkGlobals (Some l) (Some r) (Some f) (Some pbn) (Some pen) ->
  message req = Some msg ->
  msg <> [] ->
  retriever_invoke r msg = Raise e ->
  fst (chat env req w)
  = Ok (MkResponse (ErrorBody (u8 "Failed to retrieve relevant context.")) 500)
  /\ calls_to "llm.invoke" (events_of (chat env req) w) = []
  /\ globals (snd (chat env req w)) = globals w
  /\ components_loaded (globals (snd (chat env req w))) = true
  /\ (forall req', fst (chat env req' (snd (chat env req w))) = fst (chat env req' w)).
Proof.
  intros G M NE R. destruct req as [m]. cbn in M. subst m.
  rewrite (chat_retrieval_failed env l r f pbn pen msg e w G NE R).
  pose proof (events_of_extend _ _ _ _ (chat_retrieval_failed env l r f pbn pen msg e w G NE R))
    as E.
  rewrite E. cbn [fst snd].
  split; [reflexivity|].
  split.
  { change (received_line msg :: detection_events env msg
            ++ [Call "retriever.invoke" msg;
                Print (u8 "Error retrieving documents: " ++ exn_str e)])
      with ([received_line msg] ++ detection_events env msg
            ++ [Call "retriever.invoke" msg;
                Print (u8 "Error retrieving documents: " ++ exn_str e)]).
    rewrite !calls_to_app, detection_events_calls by discriminate. reflexivity. }
  split; [reflexivity|].
  split; [rewrite globals_extend, G; reflexivity|].
  intros req'. rewrite !chat_run. reflexivity.
Qed.

Lemma C8_retrieval_failure_leaves_service_ready_witness :
  fst (chat (demo_env (detects (u8 "en")) failing_store)
            (MkRequest (Some english_question))
            (started (demo_env (detects (u8 "en")) failing_store)))
  = Ok (MkResponse (ErrorBody (u8 "Failed to retrieve relevant context.")) 500).
Proof.
  apply (proj1 (C8_retrieval_failure_leaves_service_ready
                  (demo_env (detects (u8 "en")) failing_store)
                  demo_llm (as_retriever failing_store 4) format_docs_func
                  (from_template template_bn) (from_template template_en)
                  (MkRequest (Some english_question)) english_question
                  (MkExn OtherException (u8 "index is corrupt"))
                  (started (demo_env (detects (u8 "en")) failing_store))
                  ltac:(vm_compute; reflexivity) eq_refl
                  ltac:(vm_compute; discriminate) eq_refl)).
Defined.

(** ** Text extraction *)

(** C9. Text extraction always yields a string and never raises: the value
    of the [content] attribute when the response object has one, the string
    rendering of the whole object otherwise.  Hence a generation step can
    only fail because the backend call itself raised. *)
Theorem C9_extract_text_total (o : PyObject) :
  (forall text, attrs o !! "content"%string = Some text -> extract_text o = Ok text)
  /\ (attrs o !! "content"%string = None -> extract_text o = Ok (py_str o))
  /\ (exists text, extract_text o = Ok text)
  /\ (forall l prompt e,
        llm_invoke l prompt = Ok o -> generation l prompt <> Raise e).
Proof.
  unfold extract_text, hasattr, getattr.
  split; [|split; [|split]].
  - intros text H. rewrite H. reflexivity.
  - intros H. rewrite H. reflexivity.
  - destruct (attrs o !! "content"%string) as [text|]; eauto.
  - intros l prompt e H. unfold generation, extract_text, hasattr, getattr. rewrite H.
    destruct (attrs o !! "content"%string); discriminate.
Qed.

Lemma C9_extract_text_total_witness :
  extract_text demo_reply = Ok (u8 "Theft is punished under section 379.")
  /\ extract_text (MkObj ∅ (u8 "plain completion")) = Ok (u8 "plain completion").
Proof.
  split.
  - apply (proj1 (C9_extract_text_total demo_reply)). vm_compute. reflexivity.
  - apply (proj1 (proj2 (C9_extract_text_total (MkObj ∅ (u8 "plain completion"))))).
    vm_compute. reflexivity.
Defined.

(** ** Order of the checks *)

(** C10. The readiness check comes first: while the components are not
    loaded every request, whatever its message, is answered with the
    components-not-loaded error and nothing else happens; so whenever the
    handler answers with the missing-message client error, the components
    are loaded. *)
Theorem C10_readiness_check_precedes_validation (env : Env) (req : Request) (w : World) :
  (components_loaded (globals w) = false ->
   chat env req w
   = (Ok (MkResponse (ErrorBody (u8 "RAG components are not loaded. Check server logs."))
            500), w))
  /\ (fst (chat env req w)
      = Ok (MkResponse (ErrorBody (u8 "No 'message' found in request")) 400) ->
      components_loaded (globals w) = true).
Proof.
  split.
  - intros L. now apply chat_not_loaded.
  - intros H. destruct (components_loaded (globals w)) eqn:L; [reflexivity|].
    rewrite chat_not_loaded in H by exact L. cbn [fst] in H.
    unfold not_loaded_response in H. injection H as _ H. discriminate.
Qed.

Lemma C10_readiness_check_precedes_validation_witness :
  chat (demo_env (detects (u8 "en")) (demo_store demo_docs)) (MkRequest None) initial_world
  = (Ok (MkResponse (ErrorBody (u8 "RAG components are not loaded. Check server logs."))
           500), initial_world)
  /\ components_loaded
       (globals (started (demo_env (detects (u8 "en")) (demo_store demo_docs)))) = true.
Proof.
  split.
  - apply (proj1 (C10_readiness_check_precedes_validation
                    (demo_env (detects (u8 "en")) (demo_store demo_docs))
                    (MkRequest None) initial_world)).
    reflexivity.
  - apply (proj2 (C10_readiness_check_precedes_validation
                    (demo_env (detects (u8 "en")) (demo_store demo_docs))
                    (MkRequest None)
                    (started (demo_env (detects (u8 "en")) (demo_store demo_docs))))).
    vm_compute. reflexivity.
Defined.

(** ** The handler on the concrete deployment *)

(** A long English question on the started service: the detector and the
    index are each called once with the question, the backend once with the
    English prompt around the two chunks joined by a blank line, and the
    reply's [content] comes back with status 200. *)
Example english_question_end_to_end :
  let env := demo_env (detects (u8 "en")) (demo_store demo_docs) in
  let run := chat env (MkRequest (Some english_question)) (started env) in
  fst run = Ok (MkResponse (ResponseBody (u8 "Theft is punished under section 379.")) 200)
  /\ calls_to "detect" (events_of (chat env (MkRequest (Some english_question))) (started env))
     = [english_question]
  /\ calls_to "retriever.invoke"
       (events_of (chat env (MkRequest (Some english_question))) (started env))
     = [english_question]
  /\ calls_to "llm.invoke"
       (events_of (chat env (MkRequest (Some english_question))) (started env))
     = [rendered EN
          (u8 "Whoever commits theft shall be punished with imprisonment."
           ++ nl ++ nl ++ u8 "Theft is defined in section 378.")
          english_question].
Proof. vm_compute. repeat split. Qed.

(** The short Bengali question never reaches the detector and is answered
    from the Bengali prompt. *)
Example bengali_question_end_to_end :
  let env := demo_env (detector_fails OtherException) (demo_store demo_docs) in
  calls_to "detect" (events_of (chat env (MkRequest (Some bengali_question))) (started env))
  = []
  /\ calls_to "llm.invoke"
       (events_of (chat env (MkRequest (Some bengali_question))) (started env))
     = [rendered BN (format_docs_func demo_docs) bengali_question].
Proof. vm_compute. repeat split. Qed.

(** * Further properties of the service *)

(** ** What every request gets *)

(** X1. The handler never lets an exception escape: whatever the body of
    the request (not JSON at all, JSON of any shape, a message of any type),
    in every state of the module variables and whatever the detector, the
    index and the backend do, the caller gets a response.  Its status is
    200, 400 or 500; 200 goes with a response text and with nothing else,
    and 400 is sent exactly when the components are loaded, the body is a
    JSON object and its message is absent or falsy. *)
Theorem X1_chat_always_answers (env : Raw.RawEnv) (req : Raw.RawRequest) (w : World) :
  exists resp,
    fst (Raw.chat env req w) = Ok resp
    /\ (status resp = 200 \/ status resp = 400 \/ status resp = 500)%Z
    /\ (status resp = 200%Z <-> exists text, body resp = ResponseBody text)
    /\ (status resp = 400%Z
        <-> components_loaded (globals w) = true
            /\ exists fields v,
                 Raw.request_json req = Ok (Raw.PDict fields)
                 /\ Raw.py_get (Raw.PDict fields) "message" = Ok v
                 /\ Raw.truthy v = false).
Proof.
  destruct (raw_chat_answer env req w) as (resp & R & Shape).
  exists resp. split; [exact R|].
  assert (Dict : (exists data v, Raw.request_json req = Ok data
                                 /\ Raw.py_get data "message" = Ok v
                                 /\ Raw.truthy v = false)
                 <-> exists fields v,
                       Raw.request_json req = Ok (Raw.PDict fields)
                       /\ Raw.py_get (Raw.PDict fields) "message" = Ok v
                       /\ Raw.truthy v = false).
  { split.
    - intros (data & v & J & P & T). destruct data; try discriminate.
      exists fields, v. auto.
    - intros (fields & v & J & P & T). exists (Raw.PDict fields), v. auto. }
  destruct Shape as [(L & Falsy & ->)|(Other & [[S (text & B)]|[S (msg & B)]])].
  - unfold missing_message_response. cbn [status body].
    split; [auto|]. split; [split; [discriminate|intros [text H]; discriminate]|].
    split; [intros _; split; [exact L|now apply Dict]|reflexivity].
  - rewrite S, B. split; [auto|]. split; [split; eauto|].
    split; [discriminate|].
    intros [L F]. exfalso. destruct Other as [NL|NF]; [congruence|]. apply NF.
    now apply Dict.
  - rewrite S, B. split; [auto|].
    split; [split; [discriminate|intros [text H]; discriminate]|].
    split; [discriminate|].
    intros [L F]. exfalso. destruct Other as [NL|NF]; [congruence|]. apply NF.
    now apply Dict.
Qed.

Lemma X1_chat_always_answers_witness :
  exists resp,
    fst (Raw.chat demo_raw_env (Raw.MkRawRequest (Ok (Raw.PInt 7)))
           (started (Raw.base demo_raw_env)))
    = Ok resp
    /\ (status resp = 200 \/ status resp = 400 \/ status resp = 500)%Z.
Proof.
  destruct (X1_chat_always_answers demo_raw_env (Raw.MkRawRequest (Ok (Raw.PInt 7)))
              (started (Raw.base demo_raw_env)))
    as (resp & H1 & H2 & _).
  exists resp. split; [exact H1|exact H2].
Defined.




(** ** Start-up *)

Lemma load_rag_components_run (env : Env) (w : World) :
  load_rag_components env w
  = (fst (fst (startup_outcome env (globals w))),
     MkWorld (snd (fst (startup_outcome env (globals w))))
             (log w ++ snd (startup_outcome env (globals w)))).
Proof.
  unfold load_rag_components, load_vector_store, setup_llm, startup_outcome.
  unfold bind, try_except, ret, print, emit, call, write_globals.
  cbn [fst snd globals log].
  destruct (HuggingFaceEmbeddings env embedding_model) as [emb|e];
    [|cbn [fst snd app]; rewrite <- ?app_assoc; reflexivity].
  destruct (FAISS_load_local env folder_path emb) as [store|e];
    cbn [fst snd globals log app]; [|rewrite <- ?app_assoc; reflexivity].
  destruct (new_ChatOllama env ollama_model) as [l|e];
    cbn [fst snd globals log app]; [|rewrite <- ?app_assoc; reflexivity].
  destruct (llm_invoke l (u8 "Hello")) as [o|e];
    cbn [fst snd globals log app]; rewrite <- ?app_assoc; reflexivity.
Qed.

Lemma events_of_log {A} (m : M A) (w : World) (evs : list event) :
  log (snd (m w)) = log w ++ evs -> events_of m w = evs.
Proof.
  intros E. unfold events_of. rewrite E.
  rewrite skipn_app, skipn_all, Nat.sub_diag. reflexivity.
Qed.

Lemma load_rag_components_events (env : Env) (w : World) :
  events_of (load_rag_components env) w = snd (startup_outcome env (globals w)).
Proof. apply events_of_log. rewrite load_rag_components_run. reflexivity. Qed.

Ltac startup :=
  rewrite ?load_rag_components_events, ?load_rag_components_run;
  unfold startup_outcome; cbv zeta.

(** X3. Start-up returns [True] exactly when the embedding model, the
    index, the backend object and the probe call "Hello" all succeed; it
    then leaves the backend, a retriever asking the loaded index for four
    neighbours, [format_docs_func] and the two templates in the module
    variables, whatever they held before. *)
Theorem X3_startup_succeeds_exactly_when_all_steps_do (env : Env) (w : World) :
  (fst (load_rag_components env w) = Ok true
   <-> exists emb store l o,
         HuggingFaceEmbeddings env embedding_model = Ok emb
         /\ FAISS_load_local env folder_path emb = Ok store
         /\ new_ChatOllama env ollama_model = Ok l
         /\ llm_invoke l (u8 "Hello") = Ok o)
  /\ (forall emb store l o,
        HuggingFaceEmbeddings env embedding_model = Ok emb ->
        FAISS_load_local env folder_path emb = Ok store ->
        new_ChatOllama env ollama_model = Ok l ->
        llm_invoke l (u8 "Hello") = Ok o ->
        globals (snd (load_rag_components env w))
        = MkGlobals (Some l) (Some (as_retriever store 4)) (Some format_docs_func)
            (Some (from_template template_bn)) (Some (from_template template_en))
        /\ forall q, retriever_invoke (as_retriever store 4) q = similarity_search store q 4).
Proof.
  split.
  - startup. split.
    + destruct (HuggingFaceEmbeddings env embedding_model) as [emb|e] eqn:H1;
        [|discriminate].
      destruct (FAISS_load_local env folder_path emb) as [store|e] eqn:H2; [|discriminate].
      destruct (new_ChatOllama env ollama_model) as [l|e] eqn:H3; [|discriminate].
      destruct (llm_invoke l (u8 "Hello")) as [o|e] eqn:H4; [|discriminate].
      intros _. exists emb, store, l, o. repeat split; assumption.
    + intros (emb & store & l & o & -> & -> & -> & ->). reflexivity.
  - intros emb store l o H1 H2 H3 H4. startup. rewrite H1, H2, H3, H4.
    split; reflexivity.
Qed.

Lemma X3_startup_succeeds_exactly_when_all_steps_do_witness :
  fst (load_rag_components (demo_env (detects (u8 "en")) (demo_store demo_docs)) initial_world)
  = Ok true
  /\ globals (snd (load_rag_components (demo_env (detects (u8 "en")) (demo_store demo_docs))
                    initial_world))
     = MkGlobals (Some demo_llm) (Some (as_retriever (demo_store demo_docs) 4))
         (Some format_docs_func)
         (Some (from_template template_bn)) (Some (from_template template_en)).
Proof.
  pose proof (X3_startup_succeeds_exactly_when_all_steps_do
                (demo_env (detects (u8 "en")) (demo_store demo_docs)) initial_world)
    as [H1 H2].
  split.
  - apply H1. exists some_embeddings, (demo_store demo_docs), demo_llm, demo_reply.
    repeat split.
  - apply (H2 some_embeddings (demo_store demo_docs) demo_llm demo_reply); reflexivity.
Defined.

(** X4. When loading the index raises, start-up swallows the exception and
    returns [False]: the error is printed, the module variables are left as
    they were, and the backend object is never constructed. *)
Theorem X4_index_failure_stops_startup (env : Env) (w : World) (emb : Embeddings) (e : exn) :
  HuggingFaceEmbeddings env embedding_model = Ok emb ->
  FAISS_load_local env folder_path emb = Raise e ->
  fst (load_rag_components env w) = Ok false
  /\ globals (snd (load_rag_components env w)) = globals w
  /\ calls_to "ChatOllama" (events_of (load_rag_components env) w) = []
  /\ calls_to "llm.invoke" (events_of (load_rag_components env) w) = []
  /\ last (events_of (load_rag_components env) w)
     = Some (Print (u8 "Error loading FAISS index: " ++ exn_str e)).
Proof.
  intros H1 H2. startup. rewrite H1, H2. cbn [fst snd globals].
  repeat split.
Qed.

Lemma X4_index_failure_stops_startup_witness :
  fst (load_rag_components
         (env_with (Ok some_embeddings)
                   (Raise (MkExn OtherException (u8 "faiss_index not found")))
                   (Ok demo_llm))
         initial_world)
  = Ok false.
Proof.
  apply (proj1 (X4_index_failure_stops_startup
                  (env_with (Ok some_embeddings)
                            (Raise (MkExn OtherException (u8 "faiss_index not found")))
                            (Ok demo_llm))
                  initial_world some_embeddings
                  (MkExn OtherException (u8 "faiss_index not found"))
                  eq_refl eq_refl)).
Defined.

(** X5. A backend that cannot be reached makes start-up return [False]
    only after the retriever and the formatter have been assigned, and, when
    it is the probe call that fails, after the backend object has been
    assigned too; the templates are not assigned.  Started from the initial
    state the service is therefore left partly initialised, and the handler
    still reports that the components are not loaded. *)
Theorem X5_backend_failure_leaves_partial_state
    (env : Env) (w : World) (emb : Embeddings) (store : VectorStore) :
  HuggingFaceEmbeddings env embedding_model = Ok emb ->
  FAISS_load_local env folder_path emb = Ok store ->
  (forall e,
      new_ChatOllama env ollama_model = Raise e ->
      fst (load_rag_components env w) = Ok false
      /\ globals (snd (load_rag_components env w))
         = MkGlobals (llm (globals w)) (Some (as_retriever store 4)) (Some format_docs_func)
             (QA_PROMPT_BN (globals w)) (QA_PROMPT_EN (globals w)))
  /\ (forall l e,
        new_ChatOllama env ollama_model = Ok l ->
        llm_invoke l (u8 "Hello") = Raise e ->
        fst (load_rag_components env w) = Ok false
        /\ globals (snd (load_rag_components env w))
           = MkGlobals (Some l) (Some (as_retriever store 4)) (Some format_docs_func)
               (QA_PROMPT_BN (globals w)) (QA_PROMPT_EN (globals w)))
  /\ (globals w = initial_globals ->
      fst (load_rag_components env w) = Ok false ->
      forall req,
        fst (chat env req (snd (load_rag_components env w))) = Ok not_loaded_response).
Proof.
  intros H1 H2. split; [|split].
  - intros e H3. startup. rewrite H1, H2, H3. split; reflexivity.
  - intros l e H3 H4. startup. rewrite H1, H2, H3, H4. split; reflexivity.
  - intros G F req. rewrite chat_not_loaded; [reflexivity|].
    revert F. startup. rewrite H1, H2, G.
    destruct (new_ChatOllama env ollama_model) as [l|e]; [|reflexivity].
    destruct (llm_invoke l (u8 "Hello")) as [o|e]; [discriminate|reflexivity].
Qed.

Lemma X5_backend_failure_leaves_partial_state_witness :
  globals (snd (load_rag_components
                  (env_with (Ok some_embeddings) (Ok (demo_store demo_docs)) (Ok dead_llm))
                  initial_world))
  = MkGlobals (Some dead_llm) (Some (as_retriever (demo_store demo_docs) 4))
      (Some format_docs_func) None None
  /\ fst (chat (env_with (Ok some_embeddings) (Ok (demo_store demo_docs)) (Ok dead_llm))
               (MkRequest (Some english_question))
               (snd (load_rag_components
                       (env_with (Ok some_embeddings) (Ok (demo_store demo_docs))
                                 (Ok dead_llm))
                       initial_world)))
     = Ok not_loaded_response.
Proof.
  pose proof (X5_backend_failure_leaves_partial_state
                (env_with (Ok some_embeddings) (Ok (demo_store demo_docs)) (Ok dead_llm))
                initial_world some_embeddings (demo_store demo_docs) eq_refl eq_refl)
    as (_ & H2 & H3).
  split.
  - apply (H2 dead_llm (MkExn OtherException (u8 "connection refused")) eq_refl eq_refl).
  - apply H3; [reflexivity|].
    apply (H2 dead_llm (MkExn OtherException (u8 "connection refused")) eq_refl eq_refl).
Defined.

(** X6. The embedding model is loaded outside any [try]: when its
    constructor raises, the exception leaves [load_rag_components] and the
    entry point uncaught; nothing after it runs, the module variables are
    untouched and the server is not started. *)
Theorem X6_embedding_failure_escapes (env : Env) (w : World) (e : exn) (app_run : result unit) :
  HuggingFaceEmbeddings env embedding_model = Raise e ->
  fst (load_rag_components env w) = Raise e
  /\ globals (snd (load_rag_components env w)) = globals w
  /\ only_calls (events_of (load_rag_components env) w)
     = [Call "HuggingFaceEmbeddings" embedding_model]
  /\ fst (main env app_run w) = Raise e
  /\ snd (main env app_run w) = snd (load_rag_components env w).
Proof.
  intros H. unfold main, bind.
  startup. rewrite H. cbn [fst snd globals]. repeat split.
Qed.

Lemma X6_embedding_failure_escapes_witness :
  fst (main (env_with (Raise (MkExn OtherException (u8 "model not found")))
                      (Ok (demo_store demo_docs)) (Ok demo_llm))
            (Ok tt) initial_world)
  = Raise (MkExn OtherException (u8 "model not found")).
Proof.
  apply (proj1 (proj2 (proj2 (proj2
           (X6_embedding_failure_escapes
              (env_with (Raise (MkExn OtherException (u8 "model not found")))
                        (Ok (demo_store demo_docs)) (Ok demo_llm))
              initial_world (MkExn OtherException (u8 "model not found")) (Ok tt)
              eq_refl))))).
Defined.

Lemma main_run (env : Env) (app_run : result unit) (w : World) :
  main env app_run w
  = match fst (load_rag_components env w) with
    | Ok true =>
        (app_run,
         extend (snd (load_rag_components env w))
           [Print (nl ++ u8 "--- Starting Flask Server ---");
            Print (u8 "Your RAG chatbot is now available at http://localhost:5000");
            Print (u8 "Your frontend can send POST requests to http://localhost:5000/chat");
            Call "app.run" (u8 "host=0.0.0.0, port=5000")])
    | Ok false =>
        (Ok tt,
         extend (snd (load_rag_components env w))
           [Print (nl ++ u8 "Failed to load RAG components. Server will not start.")])
    | Raise e => (Raise e, snd (load_rag_components env w))
    end.
Proof.
  unfold main. unfold bind at 1.
  destruct (load_rag_components env w) as [[[|]|e] w']; cbn [fst snd]; step; reflexivity.
Qed.

Lemma startup_never_runs_server (env : Env) (g : Globals) :
  calls_to "app.run" (snd (startup_outcome env g)) = [].
Proof.
  unfold startup_outcome. cbv zeta.
  destruct (HuggingFaceEmbeddings env embedding_model) as [emb|e]; [|reflexivity].
  destruct (FAISS_load_local env folder_path emb) as [store|e]; [|reflexivity].
  destruct (new_ChatOllama env ollama_model) as [l|e]; [|reflexivity].
  destruct (llm_invoke l (u8 "Hello")) as [o|e]; reflexivity.
Qed.

Lemma main_events (env : Env) (app_run : result unit) (w : World) :
  events_of (main env app_run) w
  = events_of (load_rag_components env) w
    ++ match fst (load_rag_components env w) with
       | Ok true =>
           [Print (nl ++ u8 "--- Starting Flask Server ---");
            Print (u8 "Your RAG chatbot is now available at http://localhost:5000");
            Print (u8 "Your frontend can send POST requests to http://localhost:5000/chat");
            Call "app.run" (u8 "host=0.0.0.0, port=5000")]
       | Ok false =>
           [Print (nl ++ u8 "Failed to load RAG components. Server will not start.")]
       | Raise _ => []
       end.
Proof.
  apply events_of_log. rewrite main_run, load_rag_components_events.
  rewrite load_rag_components_run. cbn [fst snd].
  destruct (fst (fst (startup_outcome env (globals w)))) as [[|]|e];
    cbn [snd extend log]; rewrite <- ?app_assoc, ?app_nil_r; reflexivity.
Qed.

(** With the two real templates, a loaded service never answers with the
    components-not-loaded response. *)
Lemma started_never_reports_not_loaded (env : Env) (l : ChatOllama) (r : Retriever)
    (f : list Document -> pystr) (req : Request) (w : World) :
  globals w = MkGlobals (Some l) (Some r) (Some f)
                (Some (from_template template_bn)) (Some (from_template template_en)) ->
  fst (chat env req w) <> Ok not_loaded_response.
Proof.
  intros G H. rewrite chat_run, G in H. cbn [fst] in H. injection H as H.
  revert H. unfold chat_outcome.
  destruct (message req) as [[|c s]|];
    try (intros H; apply (f_equal status) in H; vm_compute in H; discriminate).
  destruct (retriever_invoke r (c :: s)) as [docs|e].
  - destruct (format_prompt
                (chosen_template env (from_template template_bn) (from_template template_en)
                   (c :: s)) (f docs) (c :: s)) as [prompt|e] eqn:F.
    + destruct (generation l prompt); cbn [fst]; intros H.
      * apply (f_equal status) in H. vm_compute in H. discriminate.
      * apply (f_equal body) in H. unfold generation_failed_response in H.
        cbn [body] in H. injection H as H. vm_compute in H. discriminate.
    + exfalso. unfold chosen_template in F.
      destruct (pystr_eqb (detected_lang env (c :: s)) bn).
      * rewrite format_prompt_bn in F. discriminate.
      * rewrite format_prompt_en in F. discriminate.
  - cbn [fst]. intros H. apply (f_equal body) in H. vm_compute in H. discriminate.
Qed.

(** X7. The entry point starts the server exactly when start-up returned
    [True], and then all five module variables are set, so that no request
    reaching this process can be answered with the components-not-loaded
    error; when start-up returned [False] only the failure line is printed
    and the entry point ends normally. *)
Theorem X7_server_runs_only_when_loaded (env : Env) (app_run : result unit) (w : World) :
  (calls_to "app.run" (events_of (main env app_run) w) <> []
   <-> fst (load_rag_components env w) = Ok true)
  /\ (fst (load_rag_components env w) = Ok true ->
      components_loaded (globals (snd (main env app_run w))) = true
      /\ forall req, fst (chat env req (snd (main env app_run w))) <> Ok not_loaded_response)
  /\ (fst (load_rag_components env w) = Ok false ->
      fst (main env app_run w) = Ok tt
      /\ events_of (main env app_run) w
         = events_of (load_rag_components env) w
           ++ [Print (nl ++ u8 "Failed to load RAG components. Server will not start.")]).
Proof.
  split; [|split].
  - rewrite main_events, calls_to_app, load_rag_components_events,
      startup_never_runs_server.
    destruct (fst (load_rag_components env w)) as [[|]|e].
    + split; [reflexivity|]. intros _. discriminate.
    + split; [intros H; now contradiction H|discriminate].
    + split; [intros H; now contradiction H|discriminate].
  - intros L. destruct (load_rag_components env w) as [r0 w'] eqn:E. cbn [fst] in L.
    subst r0. destruct (load_rag_components_ready env w w' E) as (l & store & G).
    assert (G' : globals (snd (main env app_run w)) = globals w').
    { rewrite main_run, E. reflexivity. }
    split.
    + rewrite G', G. reflexivity.
    + intros req. apply (started_never_reports_not_loaded env l (as_retriever store 4)
                           format_docs_func).
      now rewrite G'.
  - intros L. rewrite main_events, main_run, L. split; reflexivity.
Qed.

Lemma X7_server_runs_only_when_loaded_witness :
  calls_to "app.run"
    (events_of (main (demo_env (detects (u8 "en")) (demo_store demo_docs)) (Ok tt))
               initial_world)
  <> []
  /\ fst (main (env_with (Ok some_embeddings) (Ok (demo_store demo_docs)) (Ok dead_llm))
               (Ok tt) initial_world)
     = Ok tt.
Proof.
  split.
  - apply (proj1 (X7_server_runs_only_when_loaded
                    (demo_env (detects (u8 "en")) (demo_store demo_docs)) (Ok tt)
                    initial_world)).
    vm_compute. reflexivity.
  - apply (proj2 (proj2 (X7_server_runs_only_when_loaded
                           (env_with (Ok some_embeddings) (Ok (demo_store demo_docs))
                                     (Ok dead_llm))
                           (Ok tt) initial_world))).
    vm_compute. reflexivity.
Defined.

(** ** A request that is accepted *)

Lemma only_calls_app (a b : list event) : only_calls (a ++ b) = only_calls a ++ only_calls b.
Proof. unfold only_calls. apply List.filter_app. Qed.

Lemma only_calls_detection (env : Env) (msg : pystr) :
  only_calls (detection_events env msg) = detector_calls msg.
Proof.
  unfold detection_events, detector_calls.
  destruct (10 <? py_len (strip msg))%Z; [destruct (detect env msg)|]; reflexivity.
Qed.

Lemma only_calls_prelude (env : Env) (msg : pystr) :
  only_calls (prelude env msg) = detector_calls msg ++ [Call "retriever.invoke" msg].
Proof.
  change (prelude env msg)
    with ([received_line msg] ++ detection_events env msg
          ++ [Call "retriever.invoke" msg; Print (using_line (detected_lang env msg))]).
  rewrite !only_calls_app, only_calls_detection. reflexivity.
Qed.

Lemma extract_text_ok (o : PyObject) : exists text, extract_text o = Ok text.
Proof.
  unfold extract_text, hasattr, getattr.
  destruct (attrs o !! "content"%string) as [text|]; eauto.
Qed.

Lemma last_snoc2 {A} (xs : list A) (a b : A) : last (xs ++ [a; b]) = Some b.
Proof.
  change [a; b] with ([a] ++ [b]). rewrite app_assoc. apply last_snoc.
Qed.

(** X8. A request with a non-empty message for which the index and the
    backend answer is served with status 200 and the text extracted from the
    backend's reply.  On the way each component is called at most once and
    in a fixed order: the detector (only when the trimmed message is longer
    than 10 characters), then the index, then the backend; detector and
    index receive the message exactly as sent, untrimmed. *)
Theorem X8_successful_request
    (env : Env) (l : ChatOllama) (r : Retriever) (f : list Document -> pystr)
    (pbn pen : PromptTemplate) (msg prompt : pystr) (docs : list Document)
    (reply : PyObject) (w : World) :
  globals w = MkGlobals (Some l) (Some r) (Some f) (Some pbn) (Some pen) ->
  msg <> [] ->
  retriever_invoke r msg = Ok docs ->
  format_prompt (chosen_template env pbn pen msg) (f docs) msg = Ok prompt ->
  llm_invoke l prompt = Ok reply ->
  exists text,
    extract_text reply = Ok text
    /\ fst (chat env (MkRequest (Some msg)) w) = Ok (MkResponse (ResponseBody text) 200)
    /\ only_calls (events_of (chat env (MkRequest (Some msg))) w)
       = detector_calls msg ++ [Call "retriever.invoke" msg; Call "llm.invoke" prompt]
    /\ last (events_of (chat env (MkRequest (Some msg))) w)
       = Some (Print (u8 "Sending response: " ++ text)).
Proof.
  intros G NE R F L.
  destruct (extract_text_ok reply) as [text T]. exists text.
  split; [exact T|].
  assert (Gen : generation l prompt = Ok text) by (unfold generation; now rewrite L).
  pose proof (chat_answered env l r f pbn pen msg prompt docs w G NE R F) as E.
  rewrite Gen in E.
  rewrite (events_of_extend _ _ _ _ E), E. cbn [fst].
  split; [reflexivity|]. split.
  - rewrite only_calls_app, only_calls_prelude, <- app_assoc. reflexivity.
  - apply last_snoc2.
Qed.

Lemma X8_successful_request_witness :
  exists text,
    extract_text demo_reply = Ok text
    /\ fst (chat (demo_env (detects (u8 "en")) (demo_store demo_docs))
                 (MkRequest (Some english_question))
                 (started (demo_env (detects (u8 "en")) (demo_store demo_docs))))
       = Ok (MkResponse (ResponseBody text) 200)
    /\ only_calls
         (events_of (chat (demo_env (detects (u8 "en")) (demo_store demo_docs))
                          (MkRequest (Some english_question)))
                    (started (demo_env (detects (u8 "en")) (demo_store demo_docs))))
       = detector_calls english_question
         ++ [Call "retriever.invoke" english_question;
             Call "llm.invoke" (rendered EN (format_docs_func demo_docs) english_question)]
    /\ last
         (events_of (chat (demo_env (detects (u8 "en")) (demo_store demo_docs))
                          (MkRequest (Some english_question)))
                    (started (demo_env (detects (u8 "en")) (demo_store demo_docs))))
       = Some (Print (u8 "Sending response: " ++ text)).
Proof.
  apply (X8_successful_request
           (demo_env (detects (u8 "en")) (demo_store demo_docs))
           demo_llm (as_retriever (demo_store demo_docs) 4) format_docs_func
           (from_template template_bn) (from_template template_en)
           english_question
           (rendered EN (format_docs_func demo_docs) english_question)
           demo_docs demo_reply).
  - vm_compute. reflexivity.
  - vm_compute. discriminate.
  - reflexivity.
  - vm_compute. reflexivity.
  - reflexivity.
Defined.

(** X9. When the backend call raises, the caller receives status 500 with
    the message "LLM failed to generate response: " followed by the text of
    the exception; the backend was called exactly once (no retry), the
    failure is printed last, and the module variables are unchanged. *)
Theorem X9_backend_failure_reported
    (env : Env) (l : ChatOllama) (r : Retriever) (f : list Document -> pystr)
    (pbn pen : PromptTemplate) (msg prompt : pystr) (docs : list Document)
    (e : exn) (w : World) :
  globals w = MkGlobals (Some l) (Some r) (Some f) (Some pbn) (Some pen) ->
  msg <> [] ->
  retriever_invoke r msg = Ok docs ->
  format_prompt (chosen_template env pbn pen msg) (f docs) msg = Ok prompt ->
  llm_invoke l prompt = Raise e ->
  fst (chat env (MkRequest (Some msg)) w)
  = Ok (MkResponse (ErrorBody (u8 "LLM failed to generate response: " ++ exn_str e)) 500)
  /\ calls_to "llm.invoke" (events_of (chat env (MkRequest (Some msg))) w) = [prompt]
  /\ last (events_of (chat env (MkRequest (Some msg))) w)
     = Some (Print (u8 "Error during LLM invocation: " ++ exn_str e))
  /\ globals (snd (chat env (MkRequest (Some msg)) w)) = globals w.
Proof.
  intros G NE R F L.
  assert (Gen : generation l prompt = Raise e) by (unfold generation; now rewrite L).
  pose proof (chat_answered env l r f pbn pen msg prompt docs w G NE R F) as E.
  rewrite Gen in E.
  rewrite (events_of_extend _ _ _ _ E), E. cbn [fst snd].
  split; [reflexivity|]. split; [|split].
  - rewrite calls_to_app, prelude_calls_llm. reflexivity.
  - apply last_snoc2.
  - reflexivity.
Qed.

Lemma X9_backend_failure_reported_witness :
  fst (chat (demo_env (detects (u8 "en")) (demo_store demo_docs))
            (MkRequest (Some english_question))
            (MkWorld (MkGlobals (Some dead_llm) (Some (as_retriever (demo_store demo_docs) 4))
                        (Some format_docs_func)
                        (Some (from_template template_bn)) (Some (from_template template_en)))
                     []))
  = Ok (MkResponse
          (ErrorBody (u8 "LLM failed to generate response: " ++ u8 "connection refused"))
          500).
Proof.
  apply (proj1 (X9_backend_failure_reported
                  (demo_env (detects (u8 "en")) (demo_store demo_docs))
                  dead_llm (as_retriever (demo_store demo_docs) 4) format_docs_func
                  (from_template template_bn) (from_template template_en)
                  english_question
                  (rendered EN (format_docs_func demo_docs) english_question)
                  demo_docs (MkExn OtherException (u8 "connection refused"))
                  (MkWorld (MkGlobals (Some dead_llm)
                              (Some (as_retriever (demo_store demo_docs) 4))
                              (Some format_docs_func)
                              (Some (from_template template_bn))
                              (Some (from_template template_en)))
                           [])
                  eq_refl ltac:(vm_compute; discriminate) eq_refl
                  ltac:(vm_compute; reflexivity) eq_refl)).
Defined.

(** ** The prompt sent to the backend *)

Lemma rendered_length (tag : LanguageTag) (context question : pystr) :
  py_len (rendered tag context question)
  = (fixed_length tag + py_len context + py_len question)%Z.
Proof.
  unfold rendered, py_len. rewrite !length_app, !Nat2Z.inj_add.
  assert (H : (Z.of_nat (List.length (template_head tag))
               + Z.of_nat (List.length (template_between tag))
               + Z.of_nat (List.length (template_tail tag)) = fixed_length tag)%Z)
    by (destruct tag; vm_compute; reflexivity).
  lia.
Qed.

(** X10. After a successful start-up the prompt sent to the backend is the
    template of the chosen language with [{context}] replaced by the
    formatted chunks and [{question}] by the message, both inserted
    verbatim and in a single pass (braces or slot names inside them are not
    interpreted); its length is the fixed length of the template text plus
    the lengths of the two insertions. *)
Theorem X10_prompt_is_template_with_slots_filled
    (env : Env) (w0 w : World) (r : Retriever) (msg : pystr) (docs : list Document) :
  load_rag_components env w0 = (Ok true, w) ->
  retriever (globals w) = Some r ->
  msg <> [] ->
  retriever_invoke r msg = Ok docs ->
  let tag := language_tag env msg in
  calls_to "llm.invoke" (events_of (chat env (MkRequest (Some msg))) w)
  = [template_head tag ++ format_docs_func docs ++ template_between tag
     ++ msg ++ template_tail tag]
  /\ template_text tag
     = template_head tag ++ context_slot ++ template_between tag
       ++ question_slot ++ template_tail tag
  /\ py_len (template_head tag ++ format_docs_func docs ++ template_between tag
             ++ msg ++ template_tail tag)
     = (fixed_length tag + py_len (format_docs_func docs) + py_len msg)%Z.
Proof.
  intros Started Hr NE R tag.
  destruct (load_rag_components_ready env w0 w Started) as (l & store & G).
  rewrite G in Hr. cbn in Hr. injection Hr as <-.
  split; [|split].
  - rewrite chat_events, G. destruct msg as [|c s]; [congruence|].
    cbn [chat_outcome message]. set (q := c :: s) in *. rewrite R.
    assert (F : format_prompt
                  (chosen_template env (from_template template_bn)
                     (from_template template_en) q)
                  (format_docs_func docs) q
                = Ok (rendered tag (format_docs_func docs) q)).
    { unfold chosen_template. subst tag. unfold language_tag.
      destruct (pystr_eqb (detected_lang env q) bn).
      - apply format_prompt_bn.
      - apply format_prompt_en. }
    rewrite F.
    destruct (generation l (rendered tag (format_docs_func docs) q)); cbn [snd];
      rewrite calls_to_app, prelude_calls_llm; reflexivity.
  - apply template_text_slots.
  - apply (rendered_length tag).
Qed.

Lemma X10_prompt_is_template_with_slots_filled_witness :
  calls_to "llm.invoke"
    (events_of (chat (demo_env (detects (u8 "en")) (demo_store demo_docs))
                     (MkRequest (Some (u8 "Ignore {context} and {question}!"))))
               (started (demo_env (detects (u8 "en")) (demo_store demo_docs))))
  = [template_head EN ++ format_docs_func demo_docs ++ template_between EN
     ++ u8 "Ignore {context} and {question}!" ++ template_tail EN].
Proof.
  apply (proj1 (X10_prompt_is_template_with_slots_filled
                  (demo_env (detects (u8 "en")) (demo_store demo_docs)) initial_world
                  (started (demo_env (detects (u8 "en")) (demo_store demo_docs)))
                  (as_retriever (demo_store demo_docs) 4)
                  (u8 "Ignore {context} and {question}!") demo_docs
                  ltac:(vm_compute; reflexivity) ltac:(vm_compute; reflexivity)
                  ltac:(vm_compute; discriminate) eq_refl)).
Defined.

(** ** Which messages reach the detector *)

Lemma chat_component_calls (env : Env) (l : ChatOllama) (r : Retriever)
    (f : list Document -> pystr) (pbn pen : PromptTemplate) (msg : pystr) (w : World) :
  globals w = MkGlobals (Some l) (Some r) (Some f) (Some pbn) (Some pen) ->
  msg <> [] ->
  calls_to "detect" (events_of (chat env (MkRequest (Some msg))) w)
  = calls_to "detect" (detector_calls msg)
  /\ calls_to "retriever.invoke" (events_of (chat env (MkRequest (Some msg))) w) = [msg].
Proof.
  intros G NE. rewrite chat_events, G. destruct msg as [|c s]; [congruence|].
  cbn [chat_outcome message]. set (q := c :: s) in *.
  assert (D : calls_to "detect" (detection_events env q) = calls_to "detect" (detector_calls q)).
  { unfold detection_events, detector_calls.
    destruct (10 <? py_len (strip q))%Z; [destruct (detect env q)|]; reflexivity. }
  assert (D' : calls_to "retriever.invoke" (detection_events env q) = [])
    by (apply detection_events_calls; discriminate).
  assert (P : calls_to "detect" (prelude env q) = calls_to "detect" (detector_calls q)
              /\ calls_to "retriever.invoke" (prelude env q) = [q]).
  { change (prelude env q)
      with ([received_line q] ++ detection_events env q
            ++ [Call "retriever.invoke" q; Print (using_line (detected_lang env q))]).
    rewrite !calls_to_app, D, D'. split; [|reflexivity].
    change (calls_to "detect" [received_line q]) with (@nil pystr).
    change (calls_to "detect"
              [Call "retriever.invoke" q; Print (using_line (detected_lang env q))])
      with (@nil pystr).
    now rewrite app_nil_r. }
  destruct P as [P1 P2].
  destruct (retriever_invoke r q) as [docs|e].
  - destruct (format_prompt (chosen_template env pbn pen q) (f docs) q) as [prompt|e];
      [destruct (generation l prompt)|]; cbn [snd];
      rewrite !calls_to_app, P1, P2; split; try reflexivity; apply app_nil_r.
  - cbn [snd].
    change (received_line q :: detection_events env q
            ++ [Call "retriever.invoke" q;
                Print (u8 "Error retrieving documents: " ++ exn_str e)])
      with ([received_line q] ++ detection_events env q
            ++ [Call "retriever.invoke" q;
                Print (u8 "Error retrieving documents: " ++ exn_str e)]).
    rewrite !calls_to_app, D, D'. split; [|reflexivity].
    change (calls_to "detect" [received_line q]) with (@nil pystr).
    change (calls_to "detect"
              [Call "retriever.invoke" q;
               Print (u8 "Error retrieving documents: " ++ exn_str e)])
      with (@nil pystr).
    now rewrite app_nil_r.
Qed.

Lemma lstrip_all_space (s : pystr) : forallb isspace s = true -> lstrip s = [].
Proof.
  induction s as [|c s IH]; [reflexivity|].
  cbn [forallb lstrip]. intros H. apply andb_true_iff in H as [Hc Hs].
  rewrite Hc. now apply IH.
Qed.

Lemma strip_all_space (s : pystr) : forallb isspace s = true -> strip s = [].
Proof. intros H. unfold strip. rewrite lstrip_all_space by exact H. reflexivity. Qed.

(** X11. The emptiness test does not trim: a message made only of
    whitespace, however long, is not rejected as missing.  It goes to the
    index as sent, is never shown to the detector, and is answered from the
    Bengali template. *)
Theorem X11_whitespace_message_is_not_missing
    (env : Env) (l : ChatOllama) (r : Retriever) (f : list Document -> pystr)
    (pbn pen : PromptTemplate) (msg : pystr) (w : World) :
  globals w = MkGlobals (Some l) (Some r) (Some f) (Some pbn) (Some pen) ->
  msg <> [] ->
  forallb isspace msg = true ->
  fst (chat env (MkRequest (Some msg)) w) <> Ok missing_message_response
  /\ calls_to "retriever.invoke" (events_of (chat env (MkRequest (Some msg))) w) = [msg]
  /\ calls_to "detect" (events_of (chat env (MkRequest (Some msg))) w) = []
  /\ chosen_template env pbn pen msg = pbn.
Proof.
  intros G NE S.
  pose proof (strip_all_space msg S) as T.
  destruct (chat_component_calls env l r f pbn pen msg w G NE) as [D R].
  split; [|split; [|split]].
  - intros H. rewrite chat_run, G in H. cbn [fst] in H. injection H as H.
    destruct msg as [|c s]; [congruence|]. revert H. cbn [chat_outcome message].
    destruct (retriever_invoke r (c :: s)) as [docs|e].
    + destruct (format_prompt (chosen_template env pbn pen (c :: s)) (f docs) (c :: s))
        as [prompt|e]; [destruct (generation l prompt)|]; cbn [fst]; intros H;
        apply (f_equal status) in H; vm_compute in H; discriminate.
    + cbn [fst]. intros H. apply (f_equal status) in H. vm_compute in H. discriminate.
  - exact R.
  - rewrite D. unfold detector_calls. rewrite T. reflexivity.
  - unfold chosen_template, detected_lang. rewrite T. reflexivity.
Qed.

Lemma X11_whitespace_message_is_not_missing_witness :
  calls_to "retriever.invoke"
    (events_of (chat (demo_env (detects (u8 "en")) (demo_store demo_docs))
                     (MkRequest (Some (u8 "                    "))))
               (started (demo_env (detects (u8 "en")) (demo_store demo_docs))))
  = [u8 "                    "].
Proof.
  apply (proj1 (proj2 (X11_whitespace_message_is_not_missing
                         (demo_env (detects (u8 "en")) (demo_store demo_docs))
                         demo_llm (as_retriever (demo_store demo_docs) 4) format_docs_func
                         (from_template template_bn) (from_template template_en)
                         (u8 "                    ")
                         (started (demo_env (detects (u8 "en")) (demo_store demo_docs)))
                         ltac:(vm_compute; reflexivity) ltac:(vm_compute; discriminate)
                         ltac:(vm_compute; reflexivity)))).
Defined.

(** ** Size of the context *)

Lemma blank_line_separated_length (d : Document) (rest : list Document) :
  py_len (blank_line_separated (d :: rest))
  = (total_length (d :: rest) + 2 * Z.of_nat (List.length rest))%Z.
Proof.
  unfold blank_line_separated, total_length, py_len.
  cbn [map fold_right]. rewrite length_app, Nat2Z.inj_add.
  induction rest as [|d' rest IH]; cbn [flat_map map fold_right List.length].
  - lia.
  - rewrite !length_app, !Nat2Z.inj_add, Nat2Z.inj_succ.
    cbn [List.length]. unfold py_len in *. lia.
Qed.

(** X12. The context built from a non-empty list of chunks is as long as
    all chunk texts together plus two characters for each chunk after the
    first; and the context is the empty string only when there is no chunk
    at all or a single chunk whose text is empty. *)
Theorem X12_context_length (docs : list Document) :
  (docs <> [] ->
   py_len (format_docs_func docs)
   = (total_length docs + 2 * (Z.of_nat (List.length docs) - 1))%Z)
  /\ (format_docs_func docs = []
      <-> docs = [] \/ exists d, docs = [d] /\ page_content d = []).
Proof.
  rewrite format_docs_blank_line_separated. split.
  - destruct docs as [|d rest]; [congruence|]. intros _.
    rewrite blank_line_separated_length. cbn [List.length]. lia.
  - destruct docs as [|d rest].
    + split; [auto|reflexivity].
    + split.
      * intros H. right. exists d.
        destruct rest as [|d' rest].
        -- cbn in H. rewrite app_nil_r in H. auto.
        -- exfalso. apply (f_equal (@List.length N)) in H.
           cbn [blank_line_separated flat_map] in H.
           rewrite !length_app in H. cbn [List.length] in H. lia.
      * intros [H | (d0 & H & E)]; [discriminate|].
        injection H as -> ->. cbn. now rewrite E.
Qed.

Lemma X12_context_length_witness :
  py_len (format_docs_func demo_docs)
  = (total_length demo_docs + 2 * (Z.of_nat (List.length demo_docs) - 1))%Z.
Proof.
  apply (proj1 (X12_context_length demo_docs)). discriminate.
Defined.

(** ** When English is used *)

(** X13. The language block never raises, and the only way it leaves a
    code other than "bn" is that the trimmed message is longer than 10
    characters and the detector, called once with the message as sent,
    returned that code; in every other case (short message, detector
    failure of any kind, detector answering "bn") the Bengali template is
    chosen. *)
Theorem X13_english_only_on_positive_detection (env : Env) (msg : pystr) (w : World) :
  exists code,
    fst (detect_language env msg w) = Ok code
    /\ globals (snd (detect_language env msg w)) = globals w
    /\ (code <> bn ->
        (10 < py_len (strip msg))%Z
        /\ detect env msg = Ok code
        /\ calls_to "detect" (events_of (detect_language env msg) w) = [msg])
    /\ (forall pbn pen w',
          fst (choose_prompt pbn pen code w') = Ok pen ->
          pbn <> pen ->
          detect env msg = Ok code /\ code <> bn).
Proof.
  exists (detected_lang env msg).
  rewrite (events_of_extend _ _ _ _ (detect_language_run env msg w)).
  rewrite detect_language_run. cbn [fst snd].
  split; [reflexivity|]. split; [reflexivity|].
  assert (Pos : detected_lang env msg <> bn ->
                (10 < py_len (strip msg))%Z /\ detect env msg = Ok (detected_lang env msg)
                /\ calls_to "detect" (detection_events env msg) = [msg]).
  { unfold detected_lang, detection_events.
    destruct (10 <? py_len (strip msg))%Z eqn:L; [|congruence].
    apply Z.ltb_lt in L.
    destruct (detect env msg) as [code|e]; [|congruence].
    intros _. repeat split. exact L. }
  split; [exact Pos|].
  intros pbn pen w' H NEQ. rewrite choose_prompt_run in H. cbn [fst] in H.
  destruct (pystr_eqb (detected_lang env msg) bn) eqn:E.
  - injection H as H. contradiction.
  - apply pystr_eqb_neq in E. split; [apply (Pos E)|exact E].
Qed.

Lemma X13_english_only_on_positive_detection_witness :
  (10 < py_len (strip english_question))%Z
  /\ detect (demo_env (detects (u8 "en")) (demo_store demo_docs)) english_question
     = Ok (u8 "en").
Proof.
  destruct (X13_english_only_on_positive_detection
              (demo_env (detects (u8 "en")) (demo_store demo_docs))
              english_question initial_world) as (code & H1 & _ & H3 & _).
  assert (E : code = u8 "en").
  { vm_compute in H1. injection H1 as <-. vm_compute. reflexivity. }
  subst code.
  destruct H3 as (L & D & _).
  - vm_compute. discriminate.
  - split; [exact L|exact D].
Defined.

(** * The statistics tool *)

Module StatsFacts.
Import Stats.

(** X14. [load_data] returns [False] exactly when the file is missing or is
    not valid JSON, and then the object is left as it was; it returns [True]
    exactly when the file holds a JSON object, and then [data] is that
    object and [acts] is its "acts" member, or the empty list when the
    object has no such member. *)
Theorem X14_load_data_result (read_json : pystr -> exception + json) (self : ActStatistics) :
  (returned (load_data read_json self) = inr false
   <-> read_json (input_file self) = inl FileNotFoundError
       \/ read_json (input_file self) = inl JSONDecodeError)
  /\ (returned (load_data read_json self) = inr false ->
      self_after (load_data read_json self) = self)
  /\ (returned (load_data read_json self) = inr true
      <-> exists fields, read_json (input_file self) = inr (JObject fields))
  /\ (forall fields,
        read_json (input_file self) = inr (JObject fields) ->
        self_after (load_data read_json self)
        = MkStats (input_file self) (Some (JObject fields))
            match fields !! "acts"%string with
            | Some found => found
            | None => JArray []
            end).
Proof.
  unfold load_data. cbv zeta.
  destruct (read_json (input_file self)) as [e|parsed] eqn:R.
  - destruct e; cbn [returned self_after];
      (split; [split; [intros H; first [discriminate | auto]
                      |intros [H|H]; first [discriminate | reflexivity]]|]);
      (split; [intros H; first [discriminate | reflexivity]|]);
      (split; [split; [intros H; discriminate|intros [fields H]; discriminate]|]);
      intros fields H; discriminate.
  - assert (Shape : (exists fields, parsed = JObject fields)
                    \/ dict_get parsed "acts" (JArray []) = inl AttributeError).
    { destruct parsed; cbn [dict_get]; eauto. }
    destruct Shape as [[fields ->]|NotDict].
    + cbn [dict_get returned self_after].
      split; [split; [intros H; discriminate|intros [H|H]; discriminate]|].
      split; [intros H; discriminate|].
      split; [split; [intros _; now exists fields|reflexivity]|].
      intros fields' H. injection H as <-. reflexivity.
    + rewrite NotDict. cbn [returned self_after].
      split; [split; [intros H; discriminate|intros [H|H]; discriminate]|].
      split; [intros H; discriminate|].
      split; [split; [intros H; discriminate|]|].
      * intros [fields H]. injection H as ->. cbn [dict_get] in NotDict. discriminate.
      * intros fields H. injection H as ->. cbn [dict_get] in NotDict. discriminate.
Qed.

Lemma X14_load_data_result_witness :
  self_after (load_data (fun _ => inl FileNotFoundError) (init (u8 "missing.json")))
  = init (u8 "missing.json")
  /\ self_after (load_data (fun _ => inr (JObject ∅)) (init (u8 "empty.json")))
     = MkStats (u8 "empty.json") (Some (JObject ∅)) (JArray []).
Proof.
  split.
  - apply (proj1 (proj2 (X14_load_data_result (fun _ => inl FileNotFoundError)
                           (init (u8 "missing.json"))))).
    reflexivity.
  - etransitivity.
    + apply (proj2 (proj2 (proj2 (X14_load_data_result (fun _ => inr (JObject ∅))
                                    (init (u8 "empty.json"))))) ∅).
      reflexivity.
    + vm_compute. reflexivity.
Defined.

(** X15. Everything else escapes from [load_data] as an exception.  When
    the file holds valid JSON that is not an object, the [AttributeError] of
    [.get] is raised after [data] has already been replaced by the parsed
    value, while [acts] still holds what it held before; when opening or
    parsing fails in any other way than the two handled ones, that exception
    is raised and the object is untouched. *)
Theorem X15_load_data_uncaught (read_json : pystr -> exception + json) (self : ActStatistics) :
  (forall parsed,
      read_json (input_file self) = inr parsed ->
      (forall fields, parsed <> JObject fields) ->
      returned (load_data read_json self) = inl AttributeError
      /\ data (self_after (load_data read_json self)) = Some parsed
      /\ acts (self_after (load_data read_json self)) = acts self)
  /\ (forall e,
        read_json (input_file self) = inl e ->
        e <> FileNotFoundError ->
        e <> JSONDecodeError ->
        returned (load_data read_json self) = inl e
        /\ self_after (load_data read_json self) = self).
Proof.
  unfold load_data. cbv zeta. split.
  - intros parsed R NO. rewrite R.
    destruct parsed; cbn [dict_get returned self_after data acts]; auto.
    exfalso. now apply (NO fields).
  - intros e R N1 N2. rewrite R. destruct e; try congruence; auto.
Qed.

Lemma X15_load_data_uncaught_witness :
  returned (load_data (fun _ => inr (JArray [])) (init (u8 "list.json"))) = inl AttributeError
  /\ data (self_after (load_data (fun _ => inr (JArray [])) (init (u8 "list.json"))))
     = Some (JArray []).
Proof.
  destruct (proj1 (X15_load_data_uncaught (fun _ => inr (JArray [])) (init (u8 "list.json")))
              (JArray []) eq_refl ltac:(discriminate)) as (H1 & H2 & _).
  split; [exact H1|exact H2].
Defined.

Lemma find_first {A} (p : A -> bool) (xs : list A) (x : A) :
  List.find p xs = Some x ->
  exists before after,
    xs = before ++ x :: after /\ p x = true /\ forallb (fun y => negb (p y)) before = true.
Proof.
  induction xs as [|y xs IH]; [discriminate|]. cbn [List.find].
  destruct (p y) eqn:P.
  - intros E. injection E as <-. exists [], xs. auto.
  - intros E. destruct (IH E) as (before & after & -> & Px & B).
    exists (y :: before), after. cbn [forallb]. rewrite P. auto.
Qed.

(** X16. File selection in [main]: a command-line argument is taken as the
    input file without checking that it exists.  Without an argument the
    file used is the first of the six known names, in their listed order,
    that exists, and the program exits with status 1 exactly when none of
    them exists. *)
Theorem X16_input_file_selection (argv : list pystr) (path_exists : pystr -> bool) :
  (forall prog arg rest,
      argv = prog :: arg :: rest -> fst (select_input argv path_exists) = Selected (init arg))
  /\ ((List.length argv <= 1)%nat ->
      (fst (select_input argv path_exists) = Exit 1
       <-> forallb (fun name => negb (path_exists name)) possible_names = true)
      /\ (forall stats,
            fst (select_input argv path_exists) = Selected stats ->
            exists before after,
              possible_names = before ++ input_file stats :: after
              /\ path_exists (input_file stats) = true
              /\ forallb (fun name => negb (path_exists name)) before = true
              /\ stats = init (input_file stats))).
Proof.
  split.
  - intros prog arg rest ->. reflexivity.
  - intros Short.
    assert (E : select_input argv path_exists
                = match List.find path_exists possible_names with
                  | Some ((_ :: _) as name) => (Selected (init name), banner)
                  | _ => (Exit 1, banner ++ [u8 "ERROR: No dataset file found!";
                                            u8 "Usage: python act_counter.py YOUR_FILE.json"])
                  end).
    { destruct argv as [|a [|b rest]]; try reflexivity. cbn in Short. lia. }
    rewrite E. clear E.
    assert (NonEmpty : ~ In [] possible_names).
    { vm_compute. intros H. repeat (destruct H as [H|H]; [discriminate|]). exact H. }
    destruct (List.find path_exists possible_names) as [name|] eqn:F.
    + destruct (find_first _ _ _ F) as (before & after & P & Px & B).
      assert (NE : name <> []).
      { intros ->. apply NonEmpty. rewrite P. apply in_or_app. right. now left. }
      destruct name as [|c name]; [congruence|]. cbn [fst]. split.
      * split; [discriminate|]. intros All. exfalso.
        rewrite P, forallb_app in All. apply andb_true_iff in All as [_ All].
        cbn [forallb] in All. rewrite Px in All. discriminate.
      * intros stats H. injection H as <-. cbn [init input_file].
        exists before, after. auto.
    + cbn [fst]. split.
      * split; [|reflexivity]. intros _. apply forallb_forall. intros name I.
        now rewrite (find_none _ _ F name I).
      * intros stats H. discriminate.
Qed.

Lemma X16_input_file_selection_witness :
  fst (select_input [u8 "act_counter.py"] (fun name => pystr_eqb name (u8 "all_acts_clean.txt")))
  <> Exit 1
  /\ fst (select_input [u8 "act_counter.py"; u8 "mine.json"] (fun _ => false))
     = Selected (init (u8 "mine.json")).
Proof.
  pose proof (X16_input_file_selection [u8 "act_counter.py"]
                (fun name => pystr_eqb name (u8 "all_acts_clean.txt"))) as [_ H].
  split.
  - intros E. apply (proj1 (H ltac:(cbn; lia))) in E. vm_compute in E. discriminate.
  - apply (proj1 (X16_input_file_selection [u8 "act_counter.py"; u8 "mine.json"]
                    (fun _ => false))
             (u8 "act_counter.py") (u8 "mine.json") []).
    reflexivity.
Defined.

End StatsFacts.
